(** * Framework Laptop ACPI driver (framework_laptop.c): model and properties

    A shallow embedding of the driver's charge-limit, keyboard-backlight,
    battery-hook and attach/detach code.  C integers are [Z] with their
    wrap-around written out, message buffers are lists of bytes, the
    driver's global and the kernel objects it touches are fields of a
    [world] record threaded through a small state monad, and the kernel
    services the driver calls (transfer primitive, DMI, device lookup,
    managed allocation, LED and battery-hook registration, sysfs groups)
    are modelled by their contract, with their outcome taken from an
    [environment]. *)

From Stdlib Require Import ZArith List String Ascii Bool Lia.
From Stdlib Require Import DecimalString.
From Stdlib Require Strings.Byte.
Import ListNotations.

Local Open Scope string_scope.
Local Open Scope Z_scope.

(** ** C integer types *)

Definition uint8_t (z : Z) : Z := z mod 256.

(** An [unsigned int] object read back through an [int] lvalue. *)
Definition int_of_uint (u : Z) : Z :=
  let m := u mod 4294967296 in
  if m <? 2147483648 then m else m - 4294967296.

(** A [size_t] returned through [ssize_t] (64 bits). *)
Definition ssize_t_of_size_t (c : Z) : Z :=
  let m := c mod 18446744073709551616 in
  if m <? 9223372036854775808 then m else m - 18446744073709551616.

Definition SSIZE_MAX : Z := 9223372036854775807.

Definition UINT_MAX : Z := 4294967295.
Definition ULLONG_MAX : Z := 18446744073709551615.

(** errno values (include/uapi/asm-generic/errno-base.h). *)
Definition EIO : Z := 5.
Definition ENOMEM : Z := 12.
Definition ENODEV : Z := 19.
Definition EINVAL : Z := 22.
Definition ERANGE : Z := 34.

Definition BIT (n : Z) : Z := Z.shiftl 1 n.

(** ** Bytes and buffers *)

Definition byte : Set := Byte.byte.

Definition Z_of_byte (b : byte) : Z := Z.of_N (Byte.to_N b).

Definition byte_of_Z (z : Z) : byte :=
  match Byte.of_N (Z.to_N (uint8_t z)) with
  | Some b => b
  | None => Byte.x00
  end.

(** [memset(p, 0, n)]. *)
Definition memset0 (n : nat) : list byte := repeat Byte.x00 n.

(** Store of one [uint8_t] field at byte offset [off]. *)
Fixpoint store_u8 (off : nat) (v : Z) (data : list byte) : list byte :=
  match data, off with
  | [], _ => []
  | _ :: tl, O => byte_of_Z v :: tl
  | b :: tl, S k => b :: store_u8 k v tl
  end.

(** Load of one [uint8_t] field at byte offset [off]. *)
Definition load_u8 (off : nat) (data : list byte) : Z :=
  Z_of_byte (nth off data Byte.x00).

(** The received bytes [rx] land at the start of the data region; the bytes
    behind them keep what the region held, and the region keeps its size. *)
Definition copy_in (rx data : list byte) : list byte :=
  firstn (List.length data) (rx ++ skipn (List.length rx) data)%list.

(** ** EC messages *)

Definition device := string.

(** [struct cros_ec_command] with its trailing data region. *)
Record cros_ec_command := {
  version : Z;
  command : Z;
  outsize : Z;
  insize : Z;
  data : list byte
}.

Definition EC_CMD_CHARGE_LIMIT_CONTROL : Z := 0x3E03.
(** From cros_ec_commands.h. *)
Definition EC_CMD_PWM_GET_KEYBOARD_BACKLIGHT : Z := 0x0022.
Definition EC_CMD_PWM_SET_KEYBOARD_BACKLIGHT : Z := 0x0023.

(** [enum ec_chg_limit_control_modes]. *)
Definition CHG_LIMIT_DISABLE : Z := BIT 0.
Definition CHG_LIMIT_SET_LIMIT : Z := BIT 1.
Definition CHG_LIMIT_GET_LIMIT : Z := BIT 3.
Definition CHG_LIMIT_OVERRIDE : Z := BIT 7.

(** Field offsets and sizes of the message payload structs.  The request
    and the response of one command live in a union: both start at offset 0
    of the data region. *)
Module ec_params_ec_chg_limit_control.
Definition modes : nat := 0.
Definition max_percentage : nat := 1.
Definition min_percentage : nat := 2.
Definition sizeof : nat := 3.
End ec_params_ec_chg_limit_control.

Module ec_response_chg_limit_control.
Definition max_percentage : nat := 0.
Definition min_percentage : nat := 1.
Definition sizeof : nat := 2.
End ec_response_chg_limit_control.

(** From cros_ec_commands.h: [{ uint8_t percent; uint8_t enabled; }]. *)
Module ec_response_pwm_get_keyboard_backlight.
Definition percent : nat := 0.
Definition enabled : nat := 1.
Definition sizeof : nat := 2.
End ec_response_pwm_get_keyboard_backlight.

(** From cros_ec_commands.h: [{ uint8_t percent; }]. *)
Module ec_params_pwm_set_keyboard_backlight.
Definition percent : nat := 0.
Definition sizeof : nat := 1.
End ec_params_pwm_set_keyboard_backlight.

(** ** Kernel objects the driver registers *)

Record led_classdev := {
  led_name : string;
  max_brightness : Z;
  brightness : Z
}.

Record power_supply := {
  desc_name : string
}.

Inductive devres_entry :=
| Devm_framework_data
| Devm_led (l : led_classdev).

(** ** The world the driver runs in

    [ec_device] is the driver's only global.  The other fields are the
    kernel-side objects its calls act on: the firmware behind the transfer
    primitive, the messages handed to the primitive (newest first), the
    references the driver holds on the EC device, the ACPI device's
    managed resources, the registered LED devices and battery hooks, and
    the batteries that carry the driver's attribute group. *)
Record world (EC : Type) := {
  ec_device : option device;
  firmware : EC;
  xfer_log : list cros_ec_command;
  ec_refs : Z;
  devres : list devres_entry;
  leds : list led_classdev;
  battery_hooks : list string;
  battery_groups : list string
}.

Arguments ec_device {EC} _.
Arguments firmware {EC} _.
Arguments xfer_log {EC} _.
Arguments ec_refs {EC} _.
Arguments devres {EC} _.
Arguments leds {EC} _.
Arguments battery_hooks {EC} _.
Arguments battery_groups {EC} _.

(** What the surrounding kernel decides for the driver: the DMI strings of
    the machine, the devices on the platform bus, the batteries the ACPI
    battery driver holds, and the outcome of the calls that can fail for
    reasons outside the driver. *)
Inductive dmi_field := DMI_SYS_VENDOR | DMI_PRODUCT_NAME.

Record environment := {
  dmi_ident : dmi_field -> option string;
  platform_bus : list device;
  acpi_battery_list : list power_supply;
  devm_kzalloc_fails : bool;
  led_classdev_register_ret : Z;
  device_add_groups_ret : power_supply -> Z
}.

(** ** State monad *)

Definition M (S A : Type) : Type := S -> A * S.

Definition pure {S A : Type} (a : A) : M S A := fun s => (a, s).

Definition bind {S A B : Type} (m : M S A) (k : A -> M S B) : M S B :=
  fun s => let (a, s') := m s in k a s'.

Definition gets {S A : Type} (f : S -> A) : M S A := fun s => (f s, s).

Definition modify {S : Type} (f : S -> S) : M S unit := fun s => (tt, f s).

Declare Scope drv_scope.
Delimit Scope drv_scope with drv.
Notation "x <- c ;; k" := (bind c (fun x => k))
  (at level 61, c at next level, right associativity) : drv_scope.
Notation "c ;;; k" := (bind c (fun _ => k))
  (at level 61, right associativity) : drv_scope.
Local Open Scope drv_scope.

(** ** String helpers of the kernel *)

(** [strstr(hay, needle) != NULL]. *)
Fixpoint strstr (hay needle : string) : bool :=
  if String.prefix needle hay then true
  else match hay with
       | EmptyString => false
       | String _ rest => strstr rest needle
       end.

(** [strcmp(a, b)] as far as its sign matters to the driver: 0 iff equal. *)
Definition strcmp (a b : string) : Z :=
  if String.eqb a b then 0 else
  if String.ltb a b then -1 else 1.

(** lib/kstrtox.c, for the bases that take no prefix (the driver passes 10,
    for which [_parse_integer_fixup_radix] returns its argument).
    [_parse_integer]: the value of the longest prefix of
    digits valid in [base], and the number of characters taken.  The
    kernel accumulates in 64 bits and raises an overflow flag that sticks;
    the prefix values only grow, so the flag is raised exactly when the
    unbounded value computed here exceeds [ULLONG_MAX]. *)
Definition digit_val (c : ascii) : option Z :=
  let n := Z.of_N (N_of_ascii c) in
  if (48 <=? n) && (n <=? 57) then Some (n - 48)
  else
    let l := Z.lor n 32 in
    if (97 <=? l) && (l <=? 102) then Some (l - 97 + 10) else None.

Fixpoint _parse_integer (s : string) (base : Z) (res : Z) (rv : nat)
  : Z * nat * string :=
  match s with
  | EmptyString => (res, rv, s)
  | String c rest =>
      match digit_val c with
      | Some v =>
          if v <? base then _parse_integer rest base (res * base + v) (S rv)
          else (res, rv, s)
      | None => (res, rv, s)
      end
  end.

Definition newline : ascii := Ascii.ascii_of_nat 10.

Definition _kstrtoull (s : string) (base : Z) : Z + Z :=
  let '(res, rv, rest) := _parse_integer s base 0 O in
  if res >? ULLONG_MAX then inl (- ERANGE)
  else match rv with
       | O => inl (- EINVAL)
       | S _ =>
           let rest' := match rest with
                        | String c r => if Ascii.eqb c newline then r else rest
                        | EmptyString => rest
                        end in
           match rest' with
           | EmptyString => inr res
           | String _ _ => inl (- EINVAL)
           end
       end.

Definition kstrtoull (s : string) (base : Z) : Z + Z :=
  match s with
  | String "+" rest => _kstrtoull rest base
  | _ => _kstrtoull s base
  end.

(** [kstrtouint]: [inl rv] for a failure [rv < 0], [inr v] when it returns 0
    and stores [v] through its result pointer. *)
Definition kstrtouint (s : string) (base : Z) : Z + Z :=
  match kstrtoull s base with
  | inl rv => inl rv
  | inr tmp => if tmp =? tmp mod (UINT_MAX + 1) then inr tmp else inl (- ERANGE)
  end.

(** [sysfs_emit(buf, "%d\n", v)]: the text left in [buf] and its length. *)
Definition sysfs_emit_d (v : Z) : string * Z :=
  let s := NilZero.string_of_int (Z.to_int v) ++ String newline EmptyString in
  (s, Z.of_nat (String.length s)).

(** ** DMI matching (include/linux/mod_devicetable.h, drivers/firmware/dmi_scan.c) *)

Record dmi_strmatch := {
  slot : dmi_field;
  substr : string;
  exact_match : bool
}.

(** [DMI_MATCH(a, b)] leaves [exact_match] clear; [DMI_EXACT_MATCH] sets it. *)
Definition DMI_MATCH (a : dmi_field) (b : string) : dmi_strmatch :=
  {| slot := a; substr := b; exact_match := false |}.

Definition dmi_system_id := list dmi_strmatch.

(** [framework_laptop_dmi_table], without its sentinel. *)
Definition framework_laptop_dmi_table : list dmi_system_id :=
  [ [ DMI_MATCH DMI_SYS_VENDOR "Framework";
      DMI_MATCH DMI_PRODUCT_NAME "Laptop" ] ].

Definition FRAMEWORK_LAPTOP_EC_DEVICE_NAME : string := "cros_ec_lpcs.0".

Definition framework_laptop_battery_hook : string :=
  "Framework Laptop Battery Extension".

(** ** The driver *)

Section Driver.

Variable EC : Type.

(** The transfer primitive underneath [cros_ec_cmd_xfer_status]: from the
    EC device, the message and the firmware's state, the status (a
    negative errno, or the number of bytes received), the bytes received
    and the firmware's next state. *)
Variable ec_xfer : device -> cros_ec_command -> EC -> Z * list byte * EC.

Variable env : environment.

Definition W : Type := world EC.

(** *** Field updates of the world *)

Definition set_ec_device (d : option device) (w : W) : W :=
  {| ec_device := d; firmware := firmware w; xfer_log := xfer_log w;
     ec_refs := ec_refs w; devres := devres w; leds := leds w;
     battery_hooks := battery_hooks w; battery_groups := battery_groups w |}.

Definition after_xfer (msg : cros_ec_command) (fw : EC) (w : W) : W :=
  {| ec_device := ec_device w; firmware := fw; xfer_log := msg :: xfer_log w;
     ec_refs := ec_refs w; devres := devres w; leds := leds w;
     battery_hooks := battery_hooks w; battery_groups := battery_groups w |}.

Definition set_ec_refs (n : Z) (w : W) : W :=
  {| ec_device := ec_device w; firmware := firmware w; xfer_log := xfer_log w;
     ec_refs := n; devres := devres w; leds := leds w;
     battery_hooks := battery_hooks w; battery_groups := battery_groups w |}.

Definition set_devres (l : list devres_entry) (w : W) : W :=
  {| ec_device := ec_device w; firmware := firmware w; xfer_log := xfer_log w;
     ec_refs := ec_refs w; devres := l; leds := leds w;
     battery_hooks := battery_hooks w; battery_groups := battery_groups w |}.

Definition set_leds (l : list led_classdev) (w : W) : W :=
  {| ec_device := ec_device w; firmware := firmware w; xfer_log := xfer_log w;
     ec_refs := ec_refs w; devres := devres w; leds := l;
     battery_hooks := battery_hooks w; battery_groups := battery_groups w |}.

Definition set_battery_hooks (l : list string) (w : W) : W :=
  {| ec_device := ec_device w; firmware := firmware w; xfer_log := xfer_log w;
     ec_refs := ec_refs w; devres := devres w; leds := leds w;
     battery_hooks := l; battery_groups := battery_groups w |}.

Definition set_battery_groups (l : list string) (w : W) : W :=
  {| ec_device := ec_device w; firmware := firmware w; xfer_log := xfer_log w;
     ec_refs := ec_refs w; devres := devres w; leds := leds w;
     battery_hooks := battery_hooks w; battery_groups := l |}.

Definition with_data (msg : cros_ec_command) (d : list byte) : cros_ec_command :=
  {| version := version msg; command := command msg;
     outsize := outsize msg; insize := insize msg; data := d |}.

(** *** Kernel services, by contract *)

(** One transfer: the message is handed to the primitive, the received
    bytes are left in the message's data region, the status is returned. *)
Definition cros_ec_cmd_xfer_status (ec : device) (msg : cros_ec_command)
  : M W (Z * cros_ec_command) :=
  fun w =>
    let '(status, rx, fw) := ec_xfer ec msg (firmware w) in
    ((status, with_data msg (copy_in rx (data msg))), after_xfer msg fw w).

Definition dmi_matches (dmi : dmi_system_id) : bool :=
  forallb (fun m =>
             match dmi_ident env (slot m) with
             | Some s => if exact_match m then String.eqb s (substr m)
                         else strstr s (substr m)
             | None => false
             end) dmi.

(** The number of table entries the machine matches. *)
Definition dmi_check_system (table : list dmi_system_id) : Z :=
  Z.of_nat (List.length (filter dmi_matches table)).

(** The device of that name on the platform bus, with a reference taken
    on it, or NULL. *)
Definition bus_find_device_by_name (name : string) : M W (option device) :=
  fun w =>
    if existsb (String.eqb name) (platform_bus env)
    then (Some name, set_ec_refs (ec_refs w + 1) w)
    else (None, w).

(** Drops one reference; [put_device(NULL)] does nothing. *)
Definition put_device (d : option device) : M W unit :=
  fun w =>
    match d with
    | Some _ => (tt, set_ec_refs (ec_refs w - 1) w)
    | None => (tt, w)
    end.

(** [true] when the allocation was made (a non-NULL pointer). *)
Definition devm_kzalloc_framework_data : M W bool :=
  fun w =>
    if devm_kzalloc_fails env then (false, w)
    else (true, set_devres (Devm_framework_data :: devres w) w).

Definition with_brightness (l : led_classdev) (b : Z) : led_classdev :=
  {| led_name := led_name l; max_brightness := max_brightness l;
     brightness := b |}.

(** drivers/leds/led-class.c.  A registration that fails does so before the
    LED core touches the device.  One that succeeds ends with
    [led_update_brightness]: the core calls the device's [brightness_get]
    once and keeps a non-negative result as the LED's brightness. *)
Definition devm_led_classdev_register (l : led_classdev)
           (brightness_get : led_classdev -> M W Z) : M W Z :=
  fun w =>
    let r := led_classdev_register_ret env in
    if r =? 0
    then
      let (b, w1) := brightness_get l w in
      let l' := if b <? 0 then l else with_brightness l b in
      (0, set_leds (l' :: leds w1) (set_devres (Devm_led l' :: devres w1) w1))
    else (r, w).

(** [struct acpi_battery_hook]. *)
Record acpi_battery_hook := {
  hook_name : string;
  add_battery : power_supply -> M W Z;
  remove_battery : power_supply -> M W Z
}.

(** drivers/acpi/battery.c: the hook's [remove_battery] on every battery. *)
Fixpoint remove_from_batteries (hook : acpi_battery_hook)
         (batteries : list power_supply) : M W unit :=
  match batteries with
  | [] => pure tt
  | b :: rest =>
      remove_battery hook b ;;;
      remove_from_batteries hook rest
  end.

(** The hook's [add_battery] on the batteries in turn, up to the first one
    it refuses: [false] when one was refused. *)
Fixpoint add_to_batteries (hook : acpi_battery_hook)
         (batteries : list power_supply) : M W bool :=
  match batteries with
  | [] => pure true
  | b :: rest =>
      r <- add_battery hook b ;;
      if negb (r =? 0) then pure false
      else add_to_batteries hook rest
  end.

(** The hook's [remove_battery] runs on every battery, then the hook leaves
    the list. *)
Definition battery_hook_unregister (hook : acpi_battery_hook) : M W unit :=
  remove_from_batteries hook (acpi_battery_list env) ;;;
  modify (fun w =>
            set_battery_hooks
              (filter (fun h => negb (String.eqb h (hook_name hook)))
                      (battery_hooks w)) w).

(** The hook is put on the list and offered every battery; when its
    [add_battery] refuses one, the hook is unregistered again. *)
Definition battery_hook_register (hook : acpi_battery_hook) : M W unit :=
  modify (fun w => set_battery_hooks (hook_name hook :: battery_hooks w) w) ;;;
  ok <- add_to_batteries hook (acpi_battery_list env) ;;
  if ok then pure tt else battery_hook_unregister hook.

Definition device_add_groups (battery : power_supply) : M W Z :=
  fun w =>
    let r := device_add_groups_ret env battery in
    if r =? 0
    then (0, set_battery_groups (desc_name battery :: battery_groups w) w)
    else (r, w).

Definition device_remove_groups (battery : power_supply) : M W unit :=
  modify (fun w =>
            set_battery_groups
              (filter (fun n => negb (String.eqb n (desc_name battery)))
                      (battery_groups w)) w).

(** *** Charge limit *)

Definition charge_limit_control (modes : Z) (max_percentage : Z) : M W Z :=
  dev <- gets ec_device ;;
  match dev with
  | None => pure (- ENODEV)
  | Some ec =>
      let buf := memset0 (Nat.max ec_params_ec_chg_limit_control.sizeof
                                  ec_response_chg_limit_control.sizeof) in
      let msg := {| version := 0;
                    command := EC_CMD_CHARGE_LIMIT_CONTROL;
                    outsize := Z.of_nat ec_params_ec_chg_limit_control.sizeof;
                    insize := Z.of_nat ec_response_chg_limit_control.sizeof;
                    data := buf |} in
      let msg := with_data msg
                   (store_u8 ec_params_ec_chg_limit_control.modes
                             modes (data msg)) in
      let msg := with_data msg
                   (store_u8 ec_params_ec_chg_limit_control.max_percentage
                             max_percentage (data msg)) in
      r <- cros_ec_cmd_xfer_status ec msg ;;
      if fst r <? 0 then pure (- EIO)
      else pure (load_u8 ec_response_chg_limit_control.max_percentage
                         (data (snd r)))
  end.

(** The text buffer goes in and comes out next to the return value. *)
Definition battery_get_threshold (buf : string) : M W (Z * string) :=
  r <- charge_limit_control CHG_LIMIT_GET_LIMIT 0 ;;
  if r <? 0 then pure (r, buf)
  else let (text, n) := sysfs_emit_d r in pure (n, text).

Definition battery_set_threshold (buf : string) (count : Z) : M W Z :=
  match kstrtouint buf 10 with
  | inl rv => pure rv
  | inr parsed =>
      (* [int value] holds what [kstrtouint] stored as [unsigned int] *)
      let value := int_of_uint parsed in
      if value >? 100 then pure (- EINVAL)
      else
        r <- charge_limit_control CHG_LIMIT_SET_LIMIT (uint8_t value) ;;
        if r <? 0 then pure r else pure (ssize_t_of_size_t count)
  end.

Definition charge_control_end_threshold_show (buf : string) : M W (Z * string) :=
  battery_get_threshold buf.

Definition charge_control_end_threshold_store (buf : string) (count : Z) : M W Z :=
  battery_set_threshold buf count.

(** *** Keyboard backlight *)

Definition kb_led_get (led : led_classdev) : M W Z :=
  dev <- gets ec_device ;;
  match dev with
  | None => pure 0
  | Some ec =>
      let buf := memset0 ec_response_pwm_get_keyboard_backlight.sizeof in
      let msg := {| version := 0;
                    command := EC_CMD_PWM_GET_KEYBOARD_BACKLIGHT;
                    outsize := 0;
                    insize := Z.of_nat ec_response_pwm_get_keyboard_backlight.sizeof;
                    data := buf |} in
      r <- cros_ec_cmd_xfer_status ec msg ;;
      if fst r <? 0 then pure 0
      else if negb (load_u8 ec_response_pwm_get_keyboard_backlight.enabled
                            (data (snd r)) =? 0)
           then pure (load_u8 ec_response_pwm_get_keyboard_backlight.percent
                              (data (snd r)))
           else pure 0
  end.

Definition kb_led_set (led : led_classdev) (value : Z) : M W Z :=
  dev <- gets ec_device ;;
  match dev with
  | None => pure (- EIO)
  | Some ec =>
      let buf := memset0 ec_params_pwm_set_keyboard_backlight.sizeof in
      let msg := {| version := 0;
                    command := EC_CMD_PWM_SET_KEYBOARD_BACKLIGHT;
                    outsize := Z.of_nat ec_params_pwm_set_keyboard_backlight.sizeof;
                    insize := 0;
                    data := buf |} in
      let msg := with_data msg
                   (store_u8 ec_params_pwm_set_keyboard_backlight.percent
                             value (data msg)) in
      r <- cros_ec_cmd_xfer_status ec msg ;;
      if fst r <? 0 then pure (- EIO) else pure 0
  end.

(** *** Battery hook *)

Definition framework_laptop_battery_add (battery : power_supply) : M W Z :=
  if negb (strcmp (desc_name battery) "BAT1" =? 0) then pure (- ENODEV)
  else
    r <- device_add_groups battery ;;
    if negb (r =? 0) then pure (- ENODEV) else pure 0.

Definition framework_laptop_battery_remove (battery : power_supply) : M W Z :=
  device_remove_groups battery ;;;
  pure 0.

(** *** Attach and detach *)

Definition kb_led : led_classdev :=
  {| led_name := "framework_acpi::kbd_backlight"; max_brightness := 100;
     brightness := 0 |}.

(** [struct acpi_battery_hook framework_laptop_battery_hook]. *)
Definition framework_laptop_battery_hook_ops : acpi_battery_hook :=
  {| hook_name := framework_laptop_battery_hook;
     add_battery := framework_laptop_battery_add;
     remove_battery := framework_laptop_battery_remove |}.

(** The stores into the fresh allocation ([driver_data], [data->acpi_dev]
    and the fields of [data->kb_led]) are what [kb_led] holds; the
    callbacks the LED core is given are [kb_led_get] and [kb_led_set]. *)
Definition framework_add : M W Z :=
  if dmi_check_system framework_laptop_dmi_table =? 0 then pure (- ENODEV)
  else
    found <- bus_find_device_by_name FRAMEWORK_LAPTOP_EC_DEVICE_NAME ;;
    modify (set_ec_device found) ;;;
    match found with
    | None => pure (- EINVAL)
    | Some _ =>
        data_ok <- devm_kzalloc_framework_data ;;
        if negb data_ok then pure (- ENOMEM)
        else
          r <- devm_led_classdev_register kb_led kb_led_get ;;
          if negb (r =? 0) then pure r
          else
            battery_hook_register framework_laptop_battery_hook_ops ;;;
            pure r
    end.

Definition framework_remove : M W unit :=
  battery_hook_unregister framework_laptop_battery_hook_ops ;;;
  dev <- gets ec_device ;;
  put_device dev.

End Driver.

Arguments set_ec_device {EC} d w.
Arguments after_xfer {EC} msg fw w.
Arguments set_ec_refs {EC} n w.
Arguments set_devres {EC} l w.
Arguments set_leds {EC} l w.
Arguments set_battery_hooks {EC} l w.
Arguments set_battery_groups {EC} l w.
Arguments cros_ec_cmd_xfer_status {EC} ec_xfer ec msg _.
Arguments charge_limit_control {EC} ec_xfer modes max_percentage _.
Arguments battery_get_threshold {EC} ec_xfer buf _.
Arguments battery_set_threshold {EC} ec_xfer buf count _.
Arguments kb_led_get {EC} ec_xfer led _.
Arguments kb_led_set {EC} ec_xfer led value _.
Arguments framework_laptop_battery_add {EC} env battery _.
Arguments framework_laptop_battery_remove {EC} battery _.
Arguments framework_add {EC} ec_xfer env _.
Arguments framework_remove {EC} env _.

(** ** The messages the driver builds *)

Definition chg_limit_request (modes max_percentage : Z) : cros_ec_command :=
  {| version := 0;
     command := EC_CMD_CHARGE_LIMIT_CONTROL;
     outsize := 3;
     insize := 2;
     data := [byte_of_Z modes; byte_of_Z max_percentage; Byte.x00] |}.

Definition kb_get_request : cros_ec_command :=
  {| version := 0;
     command := EC_CMD_PWM_GET_KEYBOARD_BACKLIGHT;
     outsize := 0;
     insize := 2;
     data := [Byte.x00; Byte.x00] |}.

Definition kb_set_request (value : Z) : cros_ec_command :=
  {| version := 0;
     command := EC_CMD_PWM_SET_KEYBOARD_BACKLIGHT;
     outsize := 1;
     insize := 0;
     data := [byte_of_Z value] |}.

(** ** Simulated controllers and machines *)

Module Sim.

(** A controller that keeps the last limits it was sent and answers every
    charge-limit command with the limits it holds, unclamped; its
    backlight answers with the state it holds. *)
Record ec_state := {
  limit_max : byte;
  limit_min : byte;
  backlight_percent : byte;
  backlight_enabled : byte
}.

Definition EPROTO : Z := 71.

Definition echo_xfer (ec : device) (msg : cros_ec_command) (st : ec_state)
  : Z * list byte * ec_state :=
  if command msg =? EC_CMD_CHARGE_LIMIT_CONTROL then
    let modes := load_u8 0 (data msg) in
    let st' :=
      if Z.land modes CHG_LIMIT_SET_LIMIT =? 0 then st
      else {| limit_max := nth 1 (data msg) Byte.x00;
              limit_min := nth 2 (data msg) Byte.x00;
              backlight_percent := backlight_percent st;
              backlight_enabled := backlight_enabled st |} in
    (2, [limit_max st'; limit_min st'], st')
  else if command msg =? EC_CMD_PWM_GET_KEYBOARD_BACKLIGHT then
    (2, [backlight_percent st; backlight_enabled st], st)
  else if command msg =? EC_CMD_PWM_SET_KEYBOARD_BACKLIGHT then
    (0, [],
     {| limit_max := limit_max st; limit_min := limit_min st;
        backlight_percent := nth 0 (data msg) Byte.x00;
        backlight_enabled := byte_of_Z 1 |})
  else (- EPROTO, [], st).

(** A transport on which every transfer fails. *)
Definition failing_xfer (ec : device) (msg : cros_ec_command) (st : unit)
  : Z * list byte * unit :=
  (- EPROTO, [], tt).

(** A controller that reports success and sends no payload. *)
Definition silent_xfer (ec : device) (msg : cros_ec_command) (st : unit)
  : Z * list byte * unit :=
  (0, [], tt).

(** A controller that reports success and sends only the first byte of the
    backlight response. *)
Definition one_byte_xfer (ec : device) (msg : cros_ec_command) (st : unit)
  : Z * list byte * unit :=
  (1, [byte_of_Z 60], tt).

Definition ec_state0 : ec_state :=
  {| limit_max := byte_of_Z 100; limit_min := byte_of_Z 0;
     backlight_percent := byte_of_Z 77; backlight_enabled := byte_of_Z 0 |}.

Definition ec_state_limit (v : Z) : ec_state :=
  {| limit_max := byte_of_Z v; limit_min := byte_of_Z 0;
     backlight_percent := byte_of_Z 77; backlight_enabled := byte_of_Z 0 |}.

Definition ec_state_lit : ec_state :=
  {| limit_max := byte_of_Z 100; limit_min := byte_of_Z 0;
     backlight_percent := byte_of_Z 42; backlight_enabled := byte_of_Z 1 |}.

Definition BAT0 : power_supply := {| desc_name := "BAT0" |}.
Definition BAT1 : power_supply := {| desc_name := "BAT1" |}.

(** Before any attach: the global is NULL and nothing is registered. *)
Definition detached {EC : Type} (fw : EC) : world EC :=
  {| ec_device := None; firmware := fw; xfer_log := [];
     ec_refs := 0; devres := []; leds := [];
     battery_hooks := []; battery_groups := [] |}.

Definition machine (vendor product : string) : environment :=
  {| dmi_ident := fun f => match f with
                           | DMI_SYS_VENDOR => Some vendor
                           | DMI_PRODUCT_NAME => Some product
                           end;
     platform_bus := [FRAMEWORK_LAPTOP_EC_DEVICE_NAME];
     acpi_battery_list := [BAT1];
     devm_kzalloc_fails := false;
     led_classdev_register_ret := 0;
     device_add_groups_ret := fun _ => 0 |}.

Definition framework13 : environment := machine "Framework" "Laptop".

Definition framework13_gen12 : environment :=
  machine "Framework" "Laptop (12th Gen Intel Core)".

Definition other_vendor : environment := machine "LENOVO" "20XW".

Definition framework13_no_memory : environment :=
  {| dmi_ident := dmi_ident framework13;
     platform_bus := platform_bus framework13;
   acpi_battery_list := acpi_battery_list framework13;
     devm_kzalloc_fails := true;
     led_classdev_register_ret := 0;
     device_add_groups_ret := fun _ => 0 |}.

Definition framework13_led_busy : environment :=
  {| dmi_ident := dmi_ident framework13;
     platform_bus := platform_bus framework13;
   acpi_battery_list := acpi_battery_list framework13;
     devm_kzalloc_fails := false;
     led_classdev_register_ret := - 17;
     device_add_groups_ret := fun _ => 0 |}.

Definition framework13_sysfs_full : environment :=
  {| dmi_ident := dmi_ident framework13;
     platform_bus := platform_bus framework13;
   acpi_battery_list := acpi_battery_list framework13;
     devm_kzalloc_fails := false;
     led_classdev_register_ret := 0;
     device_add_groups_ret := fun _ => - ENOMEM |}.

(** The world a successful attach on [framework13] leaves behind, the
    controller having answered the LED core's first brightness read with
    no payload. *)
Definition attached {EC : Type} (fw : EC) : world EC :=
  snd (framework_add (fun _ _ st => (0, [], st)) framework13 (detached fw)).

End Sim.

(** ** Operations of the driver, as the kernel may invoke them *)

Inductive operation :=
| Attach
| Detach
| ThresholdShow (buf : string)
| ThresholdStore (buf : string) (count : Z)
| BrightnessGet
| BrightnessSet (value : Z)
| BatteryAdd (battery : power_supply)
| BatteryRemove (battery : power_supply).

Definition run {EC : Type}
           (ec_xfer : device -> cros_ec_command -> EC -> Z * list byte * EC)
           (env : environment) (op : operation) (w : world EC) : world EC :=
  match op with
  | Attach => snd (framework_add ec_xfer env w)
  | Detach => snd (framework_remove env w)
  | ThresholdShow buf => snd (battery_get_threshold ec_xfer buf w)
  | ThresholdStore buf count => snd (battery_set_threshold ec_xfer buf count w)
  | BrightnessGet => snd (kb_led_get ec_xfer kb_led w)
  | BrightnessSet value => snd (kb_led_set ec_xfer kb_led value w)
  | BatteryAdd battery => snd (framework_laptop_battery_add env battery w)
  | BatteryRemove battery => snd (framework_laptop_battery_remove battery w)
  end.

(** The handle and the references held on it are the same in both worlds. *)
Definition same_handle {EC : Type} (w w' : world EC) : Prop :=
  ec_device w' = ec_device w /\ ec_refs w' = ec_refs w.

(** A sequence of operations, first to last. *)
Definition run_all {EC : Type}
           (ec_xfer : device -> cros_ec_command -> EC -> Z * list byte * EC)
           (env : environment) (ops : list operation) (w : world EC) : world EC :=
  fold_left (fun w' op => run ec_xfer env op w') ops w.

(** [n] times attach followed by detach. *)
Definition attach_detach_cycles {EC : Type}
           (ec_xfer : device -> cros_ec_command -> EC -> Z * list byte * EC)
           (env : environment) (n : nat) (w : world EC) : world EC :=
  Nat.iter n
    (fun w' => snd (framework_remove env (snd (framework_add ec_xfer env w'))))
    w.

(** The operations in which a message can go to the controller: the
    charge-limit and backlight operations, and attach, in which the LED
    core reads the brightness once. *)
Definition may_transfer (op : operation) : bool :=
  match op with
  | Attach | ThresholdShow _ | ThresholdStore _ _
  | BrightnessGet | BrightnessSet _ => true
  | _ => false
  end.

(** The operations that talk to the controller. *)
Definition is_feature_operation (op : operation) : bool :=
  match op with
  | ThresholdShow _ | ThresholdStore _ _ | BrightnessGet | BrightnessSet _ => true
  | _ => false
  end.

(** The handle is NULL or names the EC device. *)
Definition handle_names_ec {EC : Type} (w : world EC) : Prop :=
  ec_device w = None \/ ec_device w = Some FRAMEWORK_LAPTOP_EC_DEVICE_NAME.

(** Nothing was sent to the controller between the two worlds. *)
Definition no_transfer {EC : Type} (w w' : world EC) : Prop :=
  xfer_log w' = xfer_log w /\ firmware w' = firmware w.

(** At most one message was sent between the two worlds. *)
Definition at_most_one_transfer {EC : Type} (w w' : world EC) : Prop :=
  no_transfer w w' \/ exists msg, xfer_log w' = msg :: xfer_log w.

(** A Framework Laptop on whose platform bus the EC device is missing. *)
Definition framework13_without_ec : environment :=
  {| dmi_ident := dmi_ident Sim.framework13;
     platform_bus := ["serial8250"; "alarmtimer.0"];
   acpi_battery_list := acpi_battery_list Sim.framework13;
     devm_kzalloc_fails := false;
     led_classdev_register_ret := 0;
     device_add_groups_ret := fun _ => 0 |}.

(** The installed groups once the remove callback has run on every battery
    of [batteries]. *)
Definition groups_without (batteries : list power_supply) (groups : list string)
  : list string :=
  fold_left (fun l b => filter (fun n => negb (String.eqb n (desc_name b))) l)
            batteries groups.

(** The add callback takes the battery: it is named "BAT1" and the group
    can be installed on it. *)
Definition battery_accepted (env : environment) (b : power_supply) : bool :=
  String.eqb (desc_name b) "BAT1" && (device_add_groups_ret env b =? 0).

(** What the hook registration of an attach makes of the hook list and the
    installed groups of [w]. *)
Definition hook_outcome {EC : Type} (env : environment) (w : world EC)
           (hooks groups : list string) : Prop :=
  (forallb (battery_accepted env) (acpi_battery_list env) = true /\
   hooks = framework_laptop_battery_hook :: battery_hooks w /\
   groups
   = (map desc_name (rev (acpi_battery_list env)) ++ battery_groups w)%list) \/
  (forallb (battery_accepted env) (acpi_battery_list env) = false /\
   hooks = filter (fun h => negb (String.eqb h framework_laptop_battery_hook))
                  (framework_laptop_battery_hook :: battery_hooks w) /\
   exists extra,
     (forall n, In n extra -> In n (map desc_name (acpi_battery_list env))) /\
     groups = groups_without (acpi_battery_list env)
                             (extra ++ battery_groups w)%list).

(** ** Readings of the machine's identity *)

(** Both strings are present and contain the expected text. *)
Definition platform_contains (env : environment) : bool :=
  match dmi_ident env DMI_SYS_VENDOR, dmi_ident env DMI_PRODUCT_NAME with
  | Some v, Some p => strstr v "Framework" && strstr p "Laptop"
  | _, _ => false
  end.

(** Both strings are present and equal the expected text. *)
Definition platform_equals (env : environment) : bool :=
  match dmi_ident env DMI_SYS_VENDOR, dmi_ident env DMI_PRODUCT_NAME with
  | Some v, Some p => String.eqb v "Framework" && String.eqb p "Laptop"
  | _, _ => false
  end.

(** Every step of attach can succeed on this machine. *)
Definition attach_can_succeed (env : environment) : bool :=
  platform_contains env
  && existsb (String.eqb FRAMEWORK_LAPTOP_EC_DEVICE_NAME) (platform_bus env)
  && negb (devm_kzalloc_fails env)
  && (led_classdev_register_ret env =? 0).

(** ** Statements of the written specification that the driver is compared with *)

(** A response shorter than the command's response size is refused as a
    failed transfer. *)
Definition short_response_is_refused : Prop :=
  forall (EC : Type)
         (ec_xfer : device -> cros_ec_command -> EC -> Z * list byte * EC)
         (w : world EC) (ec : device) (modes maxp status : Z)
         (rx : list byte) (fw : EC),
    ec_device w = Some ec ->
    ec_xfer ec (chg_limit_request modes maxp) (firmware w) = (status, rx, fw) ->
    0 <= status < insize (chg_limit_request modes maxp) ->
    fst (charge_limit_control ec_xfer modes maxp w) = - EIO.

(** Attach fails on every machine whose vendor is not exactly "Framework"
    or whose product is not exactly "Laptop". *)
Definition attach_requires_equal_identity : Prop :=
  forall (EC : Type)
         (ec_xfer : device -> cros_ec_command -> EC -> Z * list byte * EC)
         (env : environment) (w : world EC),
    platform_equals env = false ->
    framework_add ec_xfer env w = (- ENODEV, w).

(** Every successful read of the attribute shows a number from 0 to 100. *)
Definition threshold_text_within_100 : Prop :=
  forall (EC : Type)
         (ec_xfer : device -> cros_ec_command -> EC -> Z * list byte * EC)
         (w w' : world EC) (buf text : string) (n : Z),
    battery_get_threshold ec_xfer buf w = ((n, text), w') ->
    0 <= n ->
    exists v,
      0 <= v <= 100 /\
      text = NilZero.string_of_int (Z.to_int v) ++ String newline EmptyString.

(** Detach resets the handle to absent. *)
Definition detach_clears_handle : Prop :=
  forall (EC : Type) (env : environment) (w : world EC),
    ec_device (snd (framework_remove env w)) = None.

(** * Properties *)

(** ** Bytes *)

Lemma Z_of_byte_range (b : byte) : 0 <= Z_of_byte b <= 255.
Proof.
  unfold Z_of_byte.
  pose proof (Byte.to_N_bounded b) as Hb.
  lia.
Qed.

Lemma Z_of_byte_of_Z (z : Z) : Z_of_byte (byte_of_Z z) = z mod 256.
Proof.
  unfold byte_of_Z, Z_of_byte, uint8_t.
  pose proof (Z.mod_pos_bound z 256 ltac:(lia)) as Hm.
  pose proof (Byte.to_of_N_option_map (Z.to_N (z mod 256))) as Ho.
  destruct (Byte.of_N (Z.to_N (z mod 256))) as [b|] eqn:Hb; simpl in Ho.
  - destruct (N.leb_spec (Z.to_N (z mod 256)) 255) as [_|_]; [|discriminate].
    injection Ho as ->.
    rewrite Z2N.id; lia.
  - destruct (N.leb_spec (Z.to_N (z mod 256)) 255) as [_|Hgt]; [discriminate|].
    lia.
Qed.

Lemma load_u8_range (off : nat) (d : list byte) : 0 <= load_u8 off d <= 255.
Proof. unfold load_u8. apply Z_of_byte_range. Qed.

(** ** The parser's result fits an [unsigned int] *)

Lemma kstrtouint_range (s : string) (base v : Z) :
  kstrtouint s base = inr v -> 0 <= v <= UINT_MAX.
Proof.
  unfold kstrtouint.
  destruct (kstrtoull s base) as [rv|tmp]; [discriminate|].
  destruct (Z.eqb_spec tmp (tmp mod (UINT_MAX + 1))) as [He|_]; [|discriminate].
  intros [= <-].
  pose proof (Z.mod_pos_bound tmp (UINT_MAX + 1) ltac:(unfold UINT_MAX; lia)).
  unfold UINT_MAX in *. lia.
Qed.

Lemma int_of_uint_small (u : Z) :
  0 <= u < 2147483648 -> int_of_uint u = u.
Proof.
  intros Hu. unfold int_of_uint.
  rewrite Z.mod_small by lia.
  destruct (Z.ltb_spec u 2147483648); lia.
Qed.

Lemma int_of_uint_large (u : Z) :
  2147483648 <= u <= UINT_MAX -> int_of_uint u = u - 4294967296.
Proof.
  unfold UINT_MAX. intros Hu. unfold int_of_uint.
  rewrite Z.mod_small by lia.
  destruct (Z.ltb_spec u 2147483648); lia.
Qed.

Lemma ssize_t_of_size_t_small (c : Z) :
  0 <= c <= SSIZE_MAX -> ssize_t_of_size_t c = c.
Proof.
  unfold SSIZE_MAX, ssize_t_of_size_t. intros Hc.
  rewrite Z.mod_small by lia.
  destruct (Z.ltb_spec c 9223372036854775808); lia.
Qed.

(** ** One call of the charge-limit and backlight commands *)

Section Transfers.

Context {EC : Type}.
Variable ec_xfer : device -> cros_ec_command -> EC -> Z * list byte * EC.

Lemma charge_limit_control_absent (modes maxp : Z) (w : world EC) :
  ec_device w = None ->
  charge_limit_control ec_xfer modes maxp w = (- ENODEV, w).
Proof.
  intros Hd. unfold charge_limit_control, bind, gets, pure.
  rewrite Hd. reflexivity.
Qed.

Lemma charge_limit_control_present (modes maxp : Z) (w : world EC)
      (ec : device) (status : Z) (rx : list byte) (fw : EC) :
  ec_device w = Some ec ->
  ec_xfer ec (chg_limit_request modes maxp) (firmware w) = (status, rx, fw) ->
  charge_limit_control ec_xfer modes maxp w =
  (if status <? 0 then - EIO
   else load_u8 0 (copy_in rx (data (chg_limit_request modes maxp))),
   after_xfer (chg_limit_request modes maxp) fw w).
Proof.
  intros Hd Hx.
  unfold charge_limit_control, bind, gets, pure, cros_ec_cmd_xfer_status.
  rewrite Hd.
  change (with_data _ (store_u8 ec_params_ec_chg_limit_control.max_percentage _ _))
    with (chg_limit_request modes maxp).
  rewrite Hx. cbn [fst snd].
  destruct (status <? 0); reflexivity.
Qed.

Lemma kb_led_get_absent (led : led_classdev) (w : world EC) :
  ec_device w = None -> kb_led_get ec_xfer led w = (0, w).
Proof.
  intros Hd. unfold kb_led_get, bind, gets, pure.
  rewrite Hd. reflexivity.
Qed.

Lemma kb_led_get_present (led : led_classdev) (w : world EC)
      (ec : device) (status : Z) (rx : list byte) (fw : EC) :
  ec_device w = Some ec ->
  ec_xfer ec kb_get_request (firmware w) = (status, rx, fw) ->
  kb_led_get ec_xfer led w =
  (if status <? 0 then 0
   else if load_u8 1 (copy_in rx (data kb_get_request)) =? 0 then 0
        else load_u8 0 (copy_in rx (data kb_get_request)),
   after_xfer kb_get_request fw w).
Proof.
  intros Hd Hx.
  unfold kb_led_get, bind, gets, pure, cros_ec_cmd_xfer_status.
  rewrite Hd.
  change {| version := 0; command := EC_CMD_PWM_GET_KEYBOARD_BACKLIGHT;
            outsize := 0;
            insize := Z.of_nat ec_response_pwm_get_keyboard_backlight.sizeof;
            data := memset0 ec_response_pwm_get_keyboard_backlight.sizeof |}
    with kb_get_request.
  rewrite Hx. cbn [fst snd].
  destruct (status <? 0); [reflexivity|].
  change (data (with_data kb_get_request (copy_in rx (data kb_get_request))))
    with (copy_in rx (data kb_get_request)).
  change ec_response_pwm_get_keyboard_backlight.enabled with 1%nat.
  change ec_response_pwm_get_keyboard_backlight.percent with 0%nat.
  destruct (load_u8 1 (copy_in rx (data kb_get_request)) =? 0); reflexivity.
Qed.

Lemma kb_led_set_absent (led : led_classdev) (value : Z) (w : world EC) :
  ec_device w = None -> kb_led_set ec_xfer led value w = (- EIO, w).
Proof.
  intros Hd. unfold kb_led_set, bind, gets, pure.
  rewrite Hd. reflexivity.
Qed.

Lemma kb_led_set_present (led : led_classdev) (value : Z) (w : world EC)
      (ec : device) (status : Z) (rx : list byte) (fw : EC) :
  ec_device w = Some ec ->
  ec_xfer ec (kb_set_request value) (firmware w) = (status, rx, fw) ->
  kb_led_set ec_xfer led value w =
  (if status <? 0 then - EIO else 0, after_xfer (kb_set_request value) fw w).
Proof.
  intros Hd Hx.
  unfold kb_led_set, bind, gets, pure, cros_ec_cmd_xfer_status.
  rewrite Hd.
  change (with_data _ (store_u8 ec_params_pwm_set_keyboard_backlight.percent _ _))
    with (kb_set_request value).
  rewrite Hx. cbn [fst snd].
  destruct (status <? 0); reflexivity.
Qed.

(** Where the range check of the write path does its work: a parsed value
    above 100 that is still positive as an [int] is refused before the
    driver touches the controller. *)
Lemma battery_set_threshold_rejects (buf : string) (parsed count : Z)
      (w : world EC) :
  kstrtouint buf 10 = inr parsed ->
  100 < parsed < 2147483648 ->
  battery_set_threshold ec_xfer buf count w = (- EINVAL, w).
Proof.
  intros Hp Hr. unfold battery_set_threshold. rewrite Hp.
  rewrite int_of_uint_small by lia.
  destruct (Z.gtb_spec parsed 100); [reflexivity | lia].
Qed.

(** C1: a write whose parsed value is greater than 100 should fail with
    EINVAL before any transfer.  The driver keeps the parsed
    [unsigned int] in an [int] and compares that with 100: a parsed value
    of 2^31 or more reads as negative, passes the check, and its low byte
    is sent to the controller as the new limit in one SET_LIMIT transfer. *)
Theorem battery_set_threshold_signed_check (buf : string)
        (parsed count : Z) (w : world EC) (ec : device) :
  kstrtouint buf 10 = inr parsed ->
  2147483648 <= parsed ->
  ec_device w = Some ec ->
  100 < parsed /\
  exists msg,
    xfer_log (snd (battery_set_threshold ec_xfer buf count w))
    = msg :: xfer_log w /\
    command msg = EC_CMD_CHARGE_LIMIT_CONTROL /\
    load_u8 0 (data msg) = CHG_LIMIT_SET_LIMIT /\
    load_u8 1 (data msg) = parsed mod 256.
Proof.
  intros Hp Hbig Hd.
  pose proof (kstrtouint_range _ _ _ Hp) as Hr.
  split; [lia|].
  unfold battery_set_threshold. rewrite Hp.
  rewrite int_of_uint_large by lia.
  destruct (Z.gtb_spec (parsed - 4294967296) 100) as [Hgt|_];
    [unfold UINT_MAX in Hr; lia|].
  unfold bind.
  destruct (ec_xfer ec (chg_limit_request CHG_LIMIT_SET_LIMIT
                          (uint8_t (parsed - 4294967296))) (firmware w))
    as [[status rx] fw] eqn:Hx.
  rewrite (charge_limit_control_present _ _ _ _ _ _ _ Hd Hx).
  exists (chg_limit_request CHG_LIMIT_SET_LIMIT (uint8_t (parsed - 4294967296))).
  split.
  - destruct (status <? 0); cbn [fst snd].
    + destruct (- EIO <? 0); reflexivity.
    + destruct (_ <? 0); reflexivity.
  - split; [reflexivity|].
    split; [reflexivity|].
    unfold load_u8. cbn [data chg_limit_request nth].
    rewrite Z_of_byte_of_Z. unfold uint8_t.
    rewrite Z.mod_mod by lia.
    replace (parsed - 4294967296) with (parsed + (-16777216) * 256) by lia.
    apply Z.mod_add. lia.
Qed.

(** C2: reading the brightness never yields an error.  The result is a
    byte value; it is 0 when the EC handle is absent, when the transfer
    fails, and when the response's [enabled] byte is zero, whatever its
    [percent] byte holds; it is the response's [percent] only when the
    transfer succeeds and [enabled] is set. *)
Theorem kb_led_get_best_effort (led : led_classdev) (w w' : world EC) (r : Z) :
  kb_led_get ec_xfer led w = (r, w') ->
  0 <= r <= 255 /\
  (ec_device w = None -> r = 0 /\ w' = w) /\
  (forall ec status rx fw,
      ec_device w = Some ec ->
      ec_xfer ec kb_get_request (firmware w) = (status, rx, fw) ->
      let resp := copy_in rx (data kb_get_request) in
      (status < 0 -> r = 0) /\
      (load_u8 ec_response_pwm_get_keyboard_backlight.enabled resp = 0 -> r = 0) /\
      (0 <= status ->
       load_u8 ec_response_pwm_get_keyboard_backlight.enabled resp <> 0 ->
       r = load_u8 ec_response_pwm_get_keyboard_backlight.percent resp)).
Proof.
  intros Hrun.
  destruct (ec_device w) as [ec|] eqn:Hd.
  - destruct (ec_xfer ec kb_get_request (firmware w)) as [[status rx] fw] eqn:Hx.
    rewrite (kb_led_get_present led w ec status rx fw Hd Hx) in Hrun.
    injection Hrun as Hr _.
    change (data kb_get_request) with [Byte.x00; Byte.x00] in *.
    pose proof (load_u8_range 0 (copy_in rx [Byte.x00; Byte.x00])) as Hp.
    split; [|split].
    + subst r.
      destruct (status <? 0); [lia|].
      destruct (load_u8 1 (copy_in rx [Byte.x00; Byte.x00]) =? 0); lia.
    + discriminate.
    + intros ec' status' rx' fw' [= <-] Hx'.
      rewrite Hx in Hx'. injection Hx' as <- <- <-.
      change ec_response_pwm_get_keyboard_backlight.enabled with 1%nat.
      change ec_response_pwm_get_keyboard_backlight.percent with 0%nat.
      cbv zeta.
      destruct (Z.ltb_spec status 0) as [Hneg|Hpos].
      * repeat split; intros; lia.
      * destruct (Z.eqb_spec (load_u8 1 (copy_in rx [Byte.x00; Byte.x00])) 0)
          as [Hz|Hnz]; repeat split; intros; try lia; congruence.
  - rewrite (kb_led_get_absent led w Hd) in Hrun.
    injection Hrun as <- <-.
    split; [lia|]. split; [auto|].
    intros; discriminate.
Qed.

(** ** Absent handle *)

Lemma battery_get_threshold_absent (buf : string) (w : world EC) :
  ec_device w = None ->
  battery_get_threshold ec_xfer buf w = ((- ENODEV, buf), w).
Proof.
  intros Hd. unfold battery_get_threshold, bind.
  rewrite (charge_limit_control_absent _ _ _ Hd). reflexivity.
Qed.

(** C4: with the EC handle unresolved, the charge-limit read and write
    fail with ENODEV and the backlight write fails without a transfer
    too, but with EIO, the very value it returns when a transfer fails:
    on the backlight write path an absent device is not told apart from
    a failed transfer. *)
Theorem absent_handle_errno (led : led_classdev) (value : Z)
        (buf : string) (count : Z) (w : world EC) :
  ec_device w = None ->
  battery_get_threshold ec_xfer buf w = ((- ENODEV, buf), w) /\
  (forall parsed,
      kstrtouint buf 10 = inr parsed ->
      int_of_uint parsed <= 100 ->
      battery_set_threshold ec_xfer buf count w = (- ENODEV, w)) /\
  kb_led_set ec_xfer led value w = (- EIO, w) /\
  (forall w1 ec status rx fw,
      ec_device w1 = Some ec ->
      ec_xfer ec (kb_set_request value) (firmware w1) = (status, rx, fw) ->
      status < 0 ->
      fst (kb_led_set ec_xfer led value w1) = - EIO) /\
  - EIO <> - ENODEV.
Proof.
  intros Hd.
  split; [apply battery_get_threshold_absent; assumption|].
  split.
  - intros parsed Hp Hle. unfold battery_set_threshold. rewrite Hp.
    destruct (Z.gtb_spec (int_of_uint parsed) 100); [lia|].
    unfold bind. rewrite (charge_limit_control_absent _ _ _ Hd).
    reflexivity.
  - split; [apply kb_led_set_absent; assumption|].
    split; [|discriminate].
    intros w1 ec status rx fw Hd1 Hx Hneg.
    rewrite (kb_led_set_present led value w1 ec status rx fw Hd1 Hx).
    cbn [fst]. destruct (Z.ltb_spec status 0); [reflexivity|lia].
Qed.

(** ** Short responses *)

Lemma copy_in_nil (d : list byte) : copy_in [] d = d.
Proof. unfold copy_in. cbn [List.length skipn app]. apply firstn_all. Qed.

Lemma copy_in_short_enabled (rx : list byte) :
  (List.length rx < 2)%nat ->
  load_u8 1 (copy_in rx [Byte.x00; Byte.x00]) = 0.
Proof.
  intros Hlen.
  destruct rx as [|b0 [|b1 rx]]; [reflexivity|reflexivity|].
  cbn [List.length] in Hlen. lia.
Qed.

(** C5, as the driver has it: a transfer that reports success is taken
    whatever the number of bytes received.  The charge-limit operation
    then returns the byte at offset 0 of the buffer and no error: the
    received [max_percentage] when at least one byte came, and the
    request's [modes] byte, which shares that offset, when none did.  The
    backlight read returns 0 on a response shorter than its two bytes,
    because the [enabled] byte then still holds its zero. *)
Theorem short_response_is_accepted (modes maxp : Z) (led : led_classdev)
        (w : world EC) (ec : device) (status : Z) (rx : list byte) (fw : EC) :
  ec_device w = Some ec ->
  0 <= status ->
  (ec_xfer ec (chg_limit_request modes maxp) (firmware w) = (status, rx, fw) ->
   fst (charge_limit_control ec_xfer modes maxp w)
   = load_u8 0 (copy_in rx (data (chg_limit_request modes maxp))) /\
   0 <= fst (charge_limit_control ec_xfer modes maxp w) <= 255 /\
   (rx = [] -> fst (charge_limit_control ec_xfer modes maxp w) = modes mod 256) /\
   (forall b rest, rx = b :: rest ->
      fst (charge_limit_control ec_xfer modes maxp w) = Z_of_byte b)) /\
  (ec_xfer ec kb_get_request (firmware w) = (status, rx, fw) ->
   (List.length rx < 2)%nat ->
   fst (kb_led_get ec_xfer led w) = 0).
Proof.
  intros Hd Hpos. split.
  - intros Hx.
    rewrite (charge_limit_control_present modes maxp w ec status rx fw Hd Hx).
    cbn [fst].
    destruct (Z.ltb_spec status 0) as [Hneg|_]; [lia|].
    split; [reflexivity|].
    split; [apply load_u8_range|].
    split.
    + intros ->. rewrite copy_in_nil.
      unfold load_u8. cbn [data chg_limit_request nth].
      apply Z_of_byte_of_Z.
    + intros b rest ->. reflexivity.
  - intros Hx Hlen.
    rewrite (kb_led_get_present led w ec status rx fw Hd Hx).
    cbn [fst].
    destruct (Z.ltb_spec status 0) as [Hneg|_]; [lia|].
    change (data kb_get_request) with [Byte.x00; Byte.x00].
    rewrite (copy_in_short_enabled rx Hlen). reflexivity.
Qed.

(** A failed transfer is the one case in which these operations report
    EIO. *)
Lemma charge_limit_control_EIO_iff (modes maxp : Z) (w : world EC)
      (ec : device) (status : Z) (rx : list byte) (fw : EC) :
  ec_device w = Some ec ->
  ec_xfer ec (chg_limit_request modes maxp) (firmware w) = (status, rx, fw) ->
  (fst (charge_limit_control ec_xfer modes maxp w) = - EIO <-> status < 0).
Proof.
  intros Hd Hx.
  rewrite (charge_limit_control_present modes maxp w ec status rx fw Hd Hx).
  cbn [fst].
  pose proof (load_u8_range 0 (copy_in rx (data (chg_limit_request modes maxp)))).
  unfold EIO.
  destruct (Z.ltb_spec status 0); split; intros; lia.
Qed.

(** ** The text of the charge-limit attribute *)

Lemma sysfs_emit_d_parses (b : byte) :
  kstrtouint (fst (sysfs_emit_d (Z_of_byte b))) 10 = inr (Z_of_byte b).
Proof. destruct b; vm_compute; reflexivity. Qed.

(** C9, as the driver has it: a successful read of the attribute emits,
    in decimal ASCII followed by a newline, the byte the transfer left at
    the response's [max_percentage], a value from 0 to 255 that the
    driver passes on without comparing it with 100; the return value is
    the length of that text. *)
Theorem battery_get_threshold_emits_byte (buf : string) (w w' : world EC)
        (n : Z) (text : string) :
  battery_get_threshold ec_xfer buf w = ((n, text), w') ->
  0 <= n ->
  exists v,
    0 <= v <= 255 /\
    text = NilZero.string_of_int (Z.to_int v) ++ String newline EmptyString /\
    n = Z.of_nat (String.length text) /\
    kstrtouint text 10 = inr v /\
    exists ec status rx fw,
      ec_device w = Some ec /\
      ec_xfer ec (chg_limit_request CHG_LIMIT_GET_LIMIT 0) (firmware w)
      = (status, rx, fw) /\
      0 <= status /\
      v = load_u8 ec_response_chg_limit_control.max_percentage
                  (copy_in rx (data (chg_limit_request CHG_LIMIT_GET_LIMIT 0))).
Proof.
  intros Hrun Hn.
  destruct (ec_device w) as [ec|] eqn:Hd.
  - destruct (ec_xfer ec (chg_limit_request CHG_LIMIT_GET_LIMIT 0) (firmware w))
      as [[status rx] fw] eqn:Hx.
    unfold battery_get_threshold, bind in Hrun.
    rewrite (charge_limit_control_present _ _ _ _ _ _ _ Hd Hx) in Hrun.
    destruct (Z.ltb_spec status 0) as [Hneg|Hpos].
    + cbn in Hrun. injection Hrun as <- _ _. unfold EIO in Hn. lia.
    + set (v := load_u8 0 (copy_in rx (data (chg_limit_request CHG_LIMIT_GET_LIMIT 0))))
        in *.
      pose proof (load_u8_range 0
                    (copy_in rx (data (chg_limit_request CHG_LIMIT_GET_LIMIT 0))))
        as Hv.
      fold v in Hv.
      destruct (Z.ltb_spec v 0) as [Hlt|_]; [lia|].
      unfold sysfs_emit_d, pure in Hrun.
      injection Hrun as <- <- _.
      exists v.
      split; [exact Hv|].
      split; [reflexivity|].
      split; [reflexivity|].
      split.
      * unfold v, load_u8. apply sysfs_emit_d_parses.
      * exists ec, status, rx, fw. repeat split; auto.
  - rewrite (battery_get_threshold_absent buf w Hd) in Hrun.
    injection Hrun as <- _ _. unfold ENODEV in Hn. lia.
Qed.

End Transfers.

(** ** Round trip through a controller that echoes the limit *)

Lemma echo_set_limit (ec : device) (p : Z) (st : Sim.ec_state) :
  Sim.echo_xfer ec (chg_limit_request CHG_LIMIT_SET_LIMIT p) st
  = (2, [byte_of_Z p; Byte.x00],
     {| Sim.limit_max := byte_of_Z p;
        Sim.limit_min := Byte.x00;
        Sim.backlight_percent := Sim.backlight_percent st;
        Sim.backlight_enabled := Sim.backlight_enabled st |}).
Proof. reflexivity. Qed.

Lemma echo_get_limit (ec : device) (st : Sim.ec_state) :
  Sim.echo_xfer ec (chg_limit_request CHG_LIMIT_GET_LIMIT 0) st
  = (2, [Sim.limit_max st; Sim.limit_min st], st).
Proof. reflexivity. Qed.

(** C3: for every percentage p from 0 to 100, writing a text that parses
    to p and then reading the attribute, against a controller that stores
    the SET_LIMIT request's [max_percentage] and echoes it on GET_LIMIT
    without clamping, accepts the write and reads back p in decimal.  The
    write returns its [count] as [ssize_t]: [count] itself for every count
    up to SSIZE_MAX. *)
Theorem threshold_round_trip (p count : Z) (buf buf' : string)
        (w : world Sim.ec_state) (ec : device) :
  0 <= p <= 100 ->
  kstrtouint buf 10 = inr p ->
  ec_device w = Some ec ->
  let set := battery_set_threshold Sim.echo_xfer buf count w in
  let get := battery_get_threshold Sim.echo_xfer buf' (snd set) in
  fst set = ssize_t_of_size_t count /\
  (0 <= count <= SSIZE_MAX -> fst set = count) /\
  snd (fst get)
  = NilZero.string_of_int (Z.to_int p) ++ String newline EmptyString /\
  fst (fst get) = Z.of_nat (String.length (snd (fst get))) /\
  kstrtouint (snd (fst get)) 10 = inr p.
Proof.
  intros Hp Hparse Hd.
  assert (Hb : Z_of_byte (byte_of_Z p) = p).
  { rewrite Z_of_byte_of_Z. apply Z.mod_small. lia. }
  assert (Hset : battery_set_threshold Sim.echo_xfer buf count w
                 = (ssize_t_of_size_t count,
                    after_xfer (chg_limit_request CHG_LIMIT_SET_LIMIT (uint8_t p))
                      {| Sim.limit_max := byte_of_Z (uint8_t p);
                         Sim.limit_min := Byte.x00;
                         Sim.backlight_percent := Sim.backlight_percent (firmware w);
                         Sim.backlight_enabled := Sim.backlight_enabled (firmware w) |}
                      w)).
  { unfold battery_set_threshold. rewrite Hparse.
    rewrite int_of_uint_small by lia.
    destruct (Z.gtb_spec p 100) as [Hgt|_]; [lia|].
    unfold bind.
    rewrite (charge_limit_control_present Sim.echo_xfer _ _ w ec _ _ _ Hd
               (echo_set_limit ec (uint8_t p) (firmware w))).
    destruct (Z.ltb_spec 2 0) as [Hneg|_]; [lia|].
    change (load_u8 0 (copy_in [byte_of_Z (uint8_t p); Byte.x00]
                          (data (chg_limit_request CHG_LIMIT_SET_LIMIT (uint8_t p)))))
      with (Z_of_byte (byte_of_Z (uint8_t p))).
    pose proof (Z_of_byte_range (byte_of_Z (uint8_t p))) as Hr.
    destruct (Z.ltb_spec (Z_of_byte (byte_of_Z (uint8_t p))) 0); [lia|].
    reflexivity. }
  cbv zeta. rewrite Hset. cbn [fst snd].
  split; [reflexivity|].
  split; [apply ssize_t_of_size_t_small|].
  match goal with
  | |- context [battery_get_threshold _ _ ?w1] =>
      assert (Hd1 : ec_device w1 = Some ec) by exact Hd;
      unfold battery_get_threshold, bind;
      rewrite (charge_limit_control_present Sim.echo_xfer _ _ w1 ec _ _ _ Hd1
                 (echo_get_limit ec (firmware w1)))
  end.
  destruct (Z.ltb_spec 2 0) as [Hneg|_]; [lia|].
  change (load_u8 0 _) with (Z_of_byte (byte_of_Z (uint8_t p))).
  assert (Hu : uint8_t p = p) by (unfold uint8_t; apply Z.mod_small; lia).
  rewrite Hu, Hb.
  destruct (Z.ltb_spec p 0) as [Hlt|_]; [lia|].
  unfold sysfs_emit_d, pure. cbn [fst snd].
  split; [reflexivity|].
  split; [reflexivity|].
  rewrite <- Hb. apply sysfs_emit_d_parses.
Qed.

(** ** Substring matching *)

Lemma prefix_app (s1 s2 : string) :
  String.prefix s1 s2 = true <-> exists rest, s2 = (s1 ++ rest)%string.
Proof.
  revert s2. induction s1 as [|a s1 IH]; intros s2.
  - destruct s2; cbn; split; eauto.
  - destruct s2 as [|b s2]; cbn.
    + split; [discriminate|]. intros [rest Hrest]. discriminate.
    + destruct (Ascii.ascii_dec a b) as [->|Hne].
      * rewrite IH. split; intros [rest Hrest]; exists rest; congruence.
      * split; [discriminate|]. intros [rest Hrest]. congruence.
Qed.

Lemma strstr_contains (hay needle : string) :
  strstr hay needle = true <->
  exists before after, hay = (before ++ needle ++ after)%string.
Proof.
  induction hay as [|c hay IH].
  - change (strstr "" needle)
      with (if String.prefix needle "" then true else false).
    destruct (String.prefix needle "") eqn:Hp.
    + split; [intros _|reflexivity].
      apply prefix_app in Hp. destruct Hp as [rest Hrest].
      exists "", rest. exact Hrest.
    + split; [discriminate|]. intros [before [after Heq]].
      destruct before; [|discriminate]. cbn in Heq.
      assert (String.prefix needle "" = true) by (apply prefix_app; eauto).
      congruence.
  - change (strstr (String c hay) needle)
      with (if String.prefix needle (String c hay) then true
            else strstr hay needle).
    destruct (String.prefix needle (String c hay)) eqn:Hp.
    + split; [intros _|reflexivity].
      apply prefix_app in Hp. destruct Hp as [rest Hrest].
      exists "", rest. exact Hrest.
    + rewrite IH. split.
      * intros [before [after Heq]]. exists (String c before), after.
        cbn. congruence.
      * intros [before [after Heq]]. destruct before as [|b before].
        -- cbn in Heq.
           assert (String.prefix needle (String c hay) = true)
             by (apply prefix_app; eauto).
           congruence.
        -- cbn in Heq. injection Heq as _ Heq. eauto.
Qed.

Lemma filter_not_in (name : string) (l : list string) :
  ~ In name (filter (fun n => negb (String.eqb n name)) l).
Proof.
  intros Hin. apply filter_In in Hin. destruct Hin as [_ Hneq].
  rewrite String.eqb_refl in Hneq. discriminate.
Qed.

(** ** Attach, detach and the battery hook *)

Section Lifecycle.

Context {EC : Type}.
Variable ec_xfer : device -> cros_ec_command -> EC -> Z * list byte * EC.
Variable env : environment.

Lemma dmi_check_system_contains :
  (dmi_check_system env framework_laptop_dmi_table =? 0)
  = negb (platform_contains env).
Proof.
  unfold dmi_check_system, framework_laptop_dmi_table, platform_contains,
    dmi_matches, DMI_MATCH.
  cbn [filter forallb slot substr exact_match].
  destruct (dmi_ident env DMI_SYS_VENDOR) as [v|];
    destruct (dmi_ident env DMI_PRODUCT_NAME) as [p|];
    try reflexivity.
  - destruct (strstr v "Framework"); destruct (strstr p "Laptop"); reflexivity.
  - destruct (strstr v "Framework"); reflexivity.
Qed.

Lemma bus_lookup_found (name : string) :
  In name (platform_bus env) ->
  existsb (String.eqb name) (platform_bus env) = true.
Proof.
  intros Hin. apply existsb_exists. exists name.
  split; [assumption | apply String.eqb_refl].
Qed.

Lemma framework_add_no_match (w : world EC) :
  platform_contains env = false ->
  framework_add ec_xfer env w = (- ENODEV, w).
Proof.
  intros Hp. unfold framework_add.
  rewrite dmi_check_system_contains, Hp. reflexivity.
Qed.

(** What [platform_contains] decides, in terms of the two strings. *)
Lemma platform_contains_true :
  platform_contains env = true <->
  exists v p,
    dmi_ident env DMI_SYS_VENDOR = Some v /\
    dmi_ident env DMI_PRODUCT_NAME = Some p /\
    (exists a b, v = (a ++ "Framework" ++ b)%string) /\
    (exists a b, p = (a ++ "Laptop" ++ b)%string).
Proof.
  unfold platform_contains.
  destruct (dmi_ident env DMI_SYS_VENDOR) as [v|];
    destruct (dmi_ident env DMI_PRODUCT_NAME) as [p|].
  - rewrite andb_true_iff, !strstr_contains. split.
    + intros [Hv Hp]. exists v, p. auto.
    + intros [v' [p' [[= <-] [[= <-] [Hv Hp]]]]]. auto.
  - split; [discriminate|]. intros [v' [p' [_ [Hp _]]]]. discriminate.
  - split; [discriminate|]. intros [v' [p' [Hv _]]]. discriminate.
  - split; [discriminate|]. intros [v' [p' [Hv _]]]. discriminate.
Qed.

(** C7, as the driver has it: the identity check is a substring match.
    When the vendor string does not contain "Framework" or the product
    string does not contain "Laptop" (or one of them is missing), attach
    fails with ENODEV and leaves the world as it was: the EC device is
    not looked up, the handle is not written, and neither the LED device
    nor the battery hook is registered. *)
Theorem framework_add_unsupported_system (w : world EC) :
  platform_contains env = false ->
  fst (framework_add ec_xfer env w) = - ENODEV /\
  snd (framework_add ec_xfer env w) = w /\
  ec_device (snd (framework_add ec_xfer env w)) = ec_device w /\
  ec_refs (snd (framework_add ec_xfer env w)) = ec_refs w /\
  leds (snd (framework_add ec_xfer env w)) = leds w /\
  battery_hooks (snd (framework_add ec_xfer env w)) = battery_hooks w.
Proof.
  intros Hp. rewrite (framework_add_no_match w Hp).
  repeat split; reflexivity.
Qed.

(** C6: an attach that has resolved the EC handle and then fails should
    leave nothing behind.  When the allocation of the driver data or the
    LED registration fails, the driver returns the error at once: the
    global still holds the EC device and the reference taken by the
    lookup is still held. *)
Theorem framework_add_failure_keeps_handle (w : world EC) :
  platform_contains env = true ->
  In FRAMEWORK_LAPTOP_EC_DEVICE_NAME (platform_bus env) ->
  devm_kzalloc_fails env = true \/ led_classdev_register_ret env <> 0 ->
  fst (framework_add ec_xfer env w)
  = (if devm_kzalloc_fails env then - ENOMEM
     else led_classdev_register_ret env) /\
  fst (framework_add ec_xfer env w) <> 0 /\
  ec_device (snd (framework_add ec_xfer env w)) = Some FRAMEWORK_LAPTOP_EC_DEVICE_NAME /\
  ec_refs (snd (framework_add ec_xfer env w)) = ec_refs w + 1 /\
  leds (snd (framework_add ec_xfer env w)) = leds w /\
  battery_hooks (snd (framework_add ec_xfer env w)) = battery_hooks w.
Proof.
  intros Hp Hbus Hfail. unfold framework_add.
  rewrite dmi_check_system_contains, Hp. cbn [negb].
  unfold bind, bus_find_device_by_name.
  rewrite (bus_lookup_found _ Hbus).
  unfold modify, devm_kzalloc_framework_data.
  destruct (devm_kzalloc_fails env).
  - cbn. repeat split; try reflexivity. discriminate.
  - cbn [negb]. unfold devm_led_classdev_register.
    destruct Hfail as [Hk|Hled]; [discriminate|].
    destruct (Z.eqb_spec (led_classdev_register_ret env) 0) as [Hz|Hnz];
      [contradiction|].
    cbn [negb].
    destruct (Z.eqb_spec (led_classdev_register_ret env) 0) as [Hz|_];
      [contradiction|].
    cbn. repeat split; try reflexivity. assumption.
Qed.

Lemma strcmp_zero (a b : string) : (strcmp a b =? 0) = String.eqb a b.
Proof.
  unfold strcmp. destruct (String.eqb a b); [reflexivity|].
  destruct (String.ltb a b); reflexivity.
Qed.

(** C8: the add callback installs the attribute group exactly on the
    battery named "BAT1": every other name is refused with ENODEV and
    nothing is installed; for "BAT1" the group is installed and 0
    returned, and a failure of the installation itself is reported as
    ENODEV.  The remove callback returns 0 for every battery and leaves
    no group on it. *)
Theorem battery_hook_by_name (battery : power_supply) (w : world EC) :
  (desc_name battery <> "BAT1" ->
   framework_laptop_battery_add env battery w = (- ENODEV, w)) /\
  (desc_name battery = "BAT1" ->
   device_add_groups_ret env battery = 0 ->
   framework_laptop_battery_add env battery w
   = (0, set_battery_groups ("BAT1" :: battery_groups w) w)) /\
  (desc_name battery = "BAT1" ->
   device_add_groups_ret env battery <> 0 ->
   framework_laptop_battery_add env battery w = (- ENODEV, w)) /\
  (battery_groups (snd (framework_laptop_battery_add env battery w))
   <> battery_groups w ->
   desc_name battery = "BAT1") /\
  fst (framework_laptop_battery_remove battery w) = 0 /\
  ~ In (desc_name battery)
       (battery_groups (snd (framework_laptop_battery_remove battery w))).
Proof.
  assert (Hrm : ~ In (desc_name battery)
                   (battery_groups
                      (snd (framework_laptop_battery_remove battery w))))
    by apply filter_not_in.
  unfold framework_laptop_battery_add, bind, device_add_groups, pure.
  rewrite strcmp_zero.
  destruct (String.eqb_spec (desc_name battery) "BAT1") as [Heq|Hne];
    cbn [negb].
  - destruct (Z.eqb_spec (device_add_groups_ret env battery) 0) as [Hz|Hnz].
    + rewrite Hz. cbn [Z.eqb negb fst snd].
      repeat split; try assumption; try reflexivity; intros; try congruence.
    + destruct (Z.eqb_spec (device_add_groups_ret env battery) 0);
        [contradiction|].
      cbn [negb fst snd].
      repeat split; try assumption; try reflexivity; intros; congruence.
  - cbn [fst snd].
    repeat split; try assumption; try reflexivity; intros; congruence.
Qed.

End Lifecycle.

(** ** The battery subsystem calling back *)

Section BatteryHook.

Context {EC : Type}.
Variable env : environment.

Lemma set_battery_groups_same (w : world EC) :
  set_battery_groups (battery_groups w) w = w.
Proof. destruct w; reflexivity. Qed.

Lemma remove_from_batteries_spec (batteries : list power_supply) (w : world EC) :
  remove_from_batteries EC (framework_laptop_battery_hook_ops EC env) batteries w
  = (tt, set_battery_groups (groups_without batteries (battery_groups w)) w).
Proof.
  revert w. induction batteries as [|b rest IH]; intros w.
  - cbn. rewrite set_battery_groups_same. reflexivity.
  - cbn [remove_from_batteries]. unfold bind at 1.
    cbn [remove_battery framework_laptop_battery_hook_ops].
    unfold framework_laptop_battery_remove, bind, device_remove_groups,
      modify, pure.
    rewrite IH. reflexivity.
Qed.

(** What one add callback leaves: the groups grown by the battery's name,
    or the world as it was. *)
Lemma battery_add_cases (b : power_supply) (w : world EC) :
  framework_laptop_battery_add env b w
  = (0, set_battery_groups (desc_name b :: battery_groups w) w) \/
  (fst (framework_laptop_battery_add env b w) <> 0 /\
   snd (framework_laptop_battery_add env b w) = w).
Proof.
  unfold framework_laptop_battery_add, bind, device_add_groups, pure.
  destruct (negb (strcmp (desc_name b) "BAT1" =? 0));
    [right; split; [discriminate | reflexivity]|].
  destruct (Z.eqb_spec (device_add_groups_ret env b) 0) as [Hz|Hnz].
  - left. reflexivity.
  - destruct (Z.eqb_spec (device_add_groups_ret env b) 0); [contradiction|].
    right. split; [discriminate | reflexivity].
Qed.

Lemma add_to_batteries_spec (batteries : list power_supply) (w : world EC) :
  exists extra,
    snd (add_to_batteries EC (framework_laptop_battery_hook_ops EC env)
           batteries w)
    = set_battery_groups (extra ++ battery_groups w)%list w /\
    (forall n, In n extra -> In n (map desc_name batteries)).
Proof.
  revert w. induction batteries as [|b rest IH]; intros w.
  - exists []. cbn. rewrite set_battery_groups_same.
    split; [reflexivity | intros n []].
  - cbn [add_to_batteries]. unfold bind at 1.
    cbn [add_battery framework_laptop_battery_hook_ops].
    destruct (battery_add_cases b w) as [Hok|[Hne Hsame]].
    + rewrite Hok. cbn [negb Z.eqb].
      destruct (IH (set_battery_groups (desc_name b :: battery_groups w) w))
        as [extra [Hw Hin]].
      exists (extra ++ [desc_name b])%list.
      rewrite Hw. cbn [battery_groups set_battery_groups].
      rewrite <- app_assoc. split; [reflexivity|].
      intros n Hn. apply in_app_or in Hn. cbn [map].
      destruct Hn as [Hn|[Hn|[]]]; [right; auto | left; auto].
    + destruct (framework_laptop_battery_add env b w) as [r w1].
      cbn [fst snd] in Hne, Hsame. subst w1.
      destruct (Z.eqb_spec r 0) as [Hr0|Hr0]; [contradiction|]. cbn [negb].
      exists []. cbn. rewrite set_battery_groups_same.
      split; [reflexivity | intros n []].
Qed.

Lemma groups_without_filter (batteries : list power_supply) (l : list string) :
  groups_without batteries l
  = filter (fun n => negb (existsb (String.eqb n) (map desc_name batteries))) l.
Proof.
  unfold groups_without. revert l.
  induction batteries as [|b rest IH]; intros l.
  - cbn. induction l as [|x l IHl]; [reflexivity|].
    cbn. rewrite <- IHl. reflexivity.
  - cbn [fold_left map existsb]. rewrite IH.
    induction l as [|x l IHl]; [reflexivity|].
    cbn [filter]. destruct (String.eqb x (desc_name b)); cbn [negb orb].
    + exact IHl.
    + cbn [filter].
      destruct (negb (existsb (String.eqb x) (map desc_name rest)));
        [rewrite IHl|]; reflexivity || exact IHl.
Qed.

Lemma groups_without_not_in (batteries : list power_supply) (l : list string)
      (b : power_supply) :
  In b batteries -> ~ In (desc_name b) (groups_without batteries l).
Proof.
  intros Hb Hin. rewrite groups_without_filter in Hin.
  apply filter_In in Hin. destruct Hin as [_ Hf].
  apply negb_true_iff in Hf.
  assert (existsb (String.eqb (desc_name b)) (map desc_name batteries) = true).
  { apply existsb_exists. exists (desc_name b).
    split; [apply in_map; exact Hb | apply String.eqb_refl]. }
  congruence.
Qed.

Lemma groups_without_other (batteries : list power_supply) (l : list string)
      (n : string) :
  ~ In n (map desc_name batteries) ->
  (In n (groups_without batteries l) <-> In n l).
Proof.
  intros Hn. rewrite groups_without_filter, filter_In.
  split; [intros [H _]; exact H|].
  intros H. split; [exact H|].
  apply negb_true_iff.
  destruct (existsb (String.eqb n) (map desc_name batteries)) eqn:He;
    [|reflexivity].
  apply existsb_exists in He. destruct He as [x [Hx Heq]].
  apply String.eqb_eq in Heq. subst x. contradiction.
Qed.

Lemma groups_without_added (batteries : list power_supply)
      (extra l : list string) :
  (forall n, In n extra -> In n (map desc_name batteries)) ->
  (forall b, In b batteries -> ~ In (desc_name b) l) ->
  groups_without batteries (extra ++ l)%list = l.
Proof.
  intros Hextra Hl. rewrite groups_without_filter.
  rewrite filter_app.
  assert (H1 : filter (fun n => negb (existsb (String.eqb n)
                                        (map desc_name batteries))) extra = []).
  { induction extra as [|x extra IH]; [reflexivity|].
    cbn [filter].
    assert (Hx : existsb (String.eqb x) (map desc_name batteries) = true).
    { apply existsb_exists. exists x.
      split; [apply Hextra; left; reflexivity | apply String.eqb_refl]. }
    rewrite Hx. cbn [negb]. apply IH.
    intros n Hn. apply Hextra. right. exact Hn. }
  rewrite H1. cbn [app].
  induction l as [|x l IH]; [reflexivity|].
  cbn [filter].
  assert (Hx : existsb (String.eqb x) (map desc_name batteries) = false).
  { destruct (existsb (String.eqb x) (map desc_name batteries)) eqn:He;
      [|reflexivity].
    apply existsb_exists in He. destruct He as [y [Hy Heq]].
    apply String.eqb_eq in Heq. subst y.
    apply in_map_iff in Hy. destruct Hy as [b [Hname Hb]].
    exfalso. apply (Hl b Hb). rewrite Hname. left. reflexivity. }
  rewrite Hx. cbn [negb]. f_equal. apply IH.
  intros b Hb Hin. apply (Hl b Hb). right. exact Hin.
Qed.

Lemma battery_add_accepted (b : power_supply) (w : world EC) :
  framework_laptop_battery_add env b w
  = if battery_accepted env b
    then (0, set_battery_groups (desc_name b :: battery_groups w) w)
    else (- ENODEV, w).
Proof.
  unfold framework_laptop_battery_add, battery_accepted, bind,
    device_add_groups, pure.
  rewrite strcmp_zero.
  destruct (String.eqb (desc_name b) "BAT1"); cbn [negb andb]; [|reflexivity].
  destruct (Z.eqb_spec (device_add_groups_ret env b) 0) as [Hz|Hnz].
  - reflexivity.
  - destruct (Z.eqb_spec (device_add_groups_ret env b) 0); [contradiction|].
    reflexivity.
Qed.

Lemma add_to_batteries_accepted (batteries : list power_supply) (w : world EC) :
  forallb (battery_accepted env) batteries = true ->
  add_to_batteries EC (framework_laptop_battery_hook_ops EC env) batteries w
  = (true,
     set_battery_groups
       (map desc_name (rev batteries) ++ battery_groups w)%list w).
Proof.
  revert w. induction batteries as [|b rest IH]; intros w Hall.
  - cbn. rewrite set_battery_groups_same. reflexivity.
  - cbn [forallb] in Hall. apply andb_true_iff in Hall.
    destruct Hall as [Hb Hrest].
    cbn [add_to_batteries]. unfold bind at 1.
    cbn [add_battery framework_laptop_battery_hook_ops].
    rewrite battery_add_accepted, Hb. cbn [negb Z.eqb].
    rewrite (IH _ Hrest). cbn [battery_groups set_battery_groups rev].
    rewrite map_app, <- app_assoc. reflexivity.
Qed.

Lemma add_to_batteries_refused (batteries : list power_supply) (w : world EC) :
  forallb (battery_accepted env) batteries = false ->
  fst (add_to_batteries EC (framework_laptop_battery_hook_ops EC env)
         batteries w) = false.
Proof.
  revert w. induction batteries as [|b rest IH]; intros w Hall;
    [discriminate|].
  cbn [forallb] in Hall.
  cbn [add_to_batteries]. unfold bind at 1.
  cbn [add_battery framework_laptop_battery_hook_ops].
  rewrite battery_add_accepted.
  destruct (battery_accepted env b); cbn [andb] in Hall.
  - cbn [negb Z.eqb]. apply IH. exact Hall.
  - reflexivity.
Qed.

Lemma battery_hook_unregister_spec (w : world EC) :
  battery_hook_unregister EC env (framework_laptop_battery_hook_ops EC env) w
  = (tt,
     set_battery_hooks
       (filter (fun h => negb (String.eqb h framework_laptop_battery_hook))
               (battery_hooks w))
       (set_battery_groups
          (groups_without (acpi_battery_list env) (battery_groups w)) w)).
Proof.
  unfold battery_hook_unregister, bind, modify.
  rewrite remove_from_batteries_spec. reflexivity.
Qed.

(** The hook registration changes the hook list and the installed groups
    and nothing else. *)
Lemma battery_hook_register_spec (w : world EC) :
  exists hooks groups,
    battery_hook_register EC env (framework_laptop_battery_hook_ops EC env) w
    = (tt, set_battery_hooks hooks (set_battery_groups groups w)).
Proof.
  unfold battery_hook_register, bind, modify.
  destruct (add_to_batteries_spec (acpi_battery_list env)
              (set_battery_hooks
                 (framework_laptop_battery_hook :: battery_hooks w) w))
    as [extra [Hw _]].
  destruct (add_to_batteries EC (framework_laptop_battery_hook_ops EC env)
              (acpi_battery_list env) _) as [ok w1].
  cbn [snd] in Hw. subst w1.
  destruct ok.
  - eexists _, _. unfold pure. reflexivity.
  - rewrite battery_hook_unregister_spec.
    eexists _, _. reflexivity.
Qed.

(** The hook stays registered, with the group installed on every battery,
    when every battery is accepted; otherwise it is unregistered again and
    no battery carries the group. *)
Lemma battery_hook_register_result (w : world EC) :
  (forallb (battery_accepted env) (acpi_battery_list env) = true /\
   snd (battery_hook_register EC env (framework_laptop_battery_hook_ops EC env) w)
   = set_battery_hooks (framework_laptop_battery_hook :: battery_hooks w)
       (set_battery_groups
          (map desc_name (rev (acpi_battery_list env)) ++ battery_groups w)%list
          w)) \/
  (forallb (battery_accepted env) (acpi_battery_list env) = false /\
   exists extra,
     (forall n, In n extra -> In n (map desc_name (acpi_battery_list env))) /\
     snd (battery_hook_register EC env
            (framework_laptop_battery_hook_ops EC env) w)
     = set_battery_hooks
         (filter (fun h => negb (String.eqb h framework_laptop_battery_hook))
                 (framework_laptop_battery_hook :: battery_hooks w))
         (set_battery_groups
            (groups_without (acpi_battery_list env)
                            (extra ++ battery_groups w)%list) w)).
Proof.
  unfold battery_hook_register, bind, modify.
  destruct (forallb (battery_accepted env) (acpi_battery_list env)) eqn:Hall.
  - left. split; [reflexivity|].
    rewrite (add_to_batteries_accepted _ _ Hall). reflexivity.
  - right. split; [reflexivity|].
    pose proof (add_to_batteries_refused (acpi_battery_list env)
                  (set_battery_hooks
                     (framework_laptop_battery_hook :: battery_hooks w) w) Hall)
      as Hfst.
    destruct (add_to_batteries_spec (acpi_battery_list env)
                (set_battery_hooks
                   (framework_laptop_battery_hook :: battery_hooks w) w))
      as [extra [Hw Hin]].
    cbn [hook_name framework_laptop_battery_hook_ops] in *.
    destruct (add_to_batteries EC (framework_laptop_battery_hook_ops EC env)
                (acpi_battery_list env) _) as [ok w1].
    cbn [fst snd] in Hfst, Hw. subst ok w1.
    exists extra. split; [exact Hin|].
    rewrite battery_hook_unregister_spec. reflexivity.
Qed.

Lemma framework_remove_unfold (w : world EC) :
  framework_remove env w
  = (tt,
     {| ec_device := ec_device w;
        firmware := firmware w;
        xfer_log := xfer_log w;
        ec_refs := match ec_device w with
                   | Some _ => ec_refs w - 1
                   | None => ec_refs w
                   end;
        devres := devres w;
        leds := leds w;
        battery_hooks :=
          filter (fun h => negb (String.eqb h framework_laptop_battery_hook))
                 (battery_hooks w);
        battery_groups :=
          groups_without (acpi_battery_list env) (battery_groups w) |}).
Proof.
  unfold framework_remove, bind.
  rewrite battery_hook_unregister_spec.
  unfold gets, put_device, set_ec_refs, set_battery_hooks, set_battery_groups.
  cbn [ec_device firmware xfer_log ec_refs devres leds battery_hooks
       battery_groups].
  destruct (ec_device w) eqn:Hd; reflexivity.
Qed.

End BatteryHook.

(** ** A complete attach *)

Section AttachSteps.

Context {EC : Type}.
Variable ec_xfer : device -> cros_ec_command -> EC -> Z * list byte * EC.
Variable env : environment.

(** Every step succeeding: the lookup sets the handle and takes the
    reference, the LED core reads the brightness once through
    [kb_led_get], and the hook registration leaves a hook list and
    installed groups. *)
Lemma framework_add_complete (w : world EC) :
  platform_contains env = true ->
  existsb (String.eqb FRAMEWORK_LAPTOP_EC_DEVICE_NAME) (platform_bus env) = true ->
  devm_kzalloc_fails env = false ->
  led_classdev_register_ret env = 0 ->
  exists status rx fw led hooks groups,
    ec_xfer FRAMEWORK_LAPTOP_EC_DEVICE_NAME kb_get_request (firmware w)
    = (status, rx, fw) /\
    led_name led = led_name kb_led /\
    max_brightness led = max_brightness kb_led /\
    framework_add ec_xfer env w
    = (0,
       {| ec_device := Some FRAMEWORK_LAPTOP_EC_DEVICE_NAME;
          firmware := fw;
          xfer_log := kb_get_request :: xfer_log w;
          ec_refs := ec_refs w + 1;
          devres := Devm_led led :: Devm_framework_data :: devres w;
          leds := led :: leds w;
          battery_hooks := hooks;
          battery_groups := groups |}) /\
    hook_outcome env w hooks groups.
Proof.
  intros Hp Hbus Hk Hled.
  destruct (ec_xfer FRAMEWORK_LAPTOP_EC_DEVICE_NAME kb_get_request (firmware w))
    as [[status rx] fw] eqn:Hx.
  exists status, rx, fw.
  unfold framework_add.
  rewrite dmi_check_system_contains, Hp. cbn [negb].
  unfold bind at 1. unfold bus_find_device_by_name. rewrite Hbus.
  unfold bind at 1. unfold modify.
  unfold bind at 1. unfold devm_kzalloc_framework_data. rewrite Hk. cbn [negb].
  unfold bind at 1. unfold devm_led_classdev_register. rewrite Hled.
  cbn [Z.eqb].
  match goal with
  | |- context [kb_led_get ec_xfer kb_led ?w0] =>
      rewrite (kb_led_get_present ec_xfer kb_led w0
                 FRAMEWORK_LAPTOP_EC_DEVICE_NAME status rx fw eq_refl Hx)
  end.
  cbn [negb Z.eqb].
  unfold bind at 1.
  match goal with
  | |- context [battery_hook_register EC env _ ?w2] =>
      pose proof (battery_hook_register_result env w2) as Hres;
      destruct (battery_hook_register EC env
                  (framework_laptop_battery_hook_ops EC env) w2) as [[] w3]
  end.
  cbn [snd] in Hres. unfold pure.
  destruct Hres as [[Hall Hw3]|[Hall [extra [Hin Hw3]]]]; subst w3.
  - eexists _, _, _.
    split; [reflexivity|].
    split; [|split; [|split]]; [| |reflexivity|].
    + destruct (_ <? 0); reflexivity.
    + destruct (_ <? 0); reflexivity.
    + left. split; [exact Hall|]. split; reflexivity.
  - eexists _, _, _.
    split; [reflexivity|].
    split; [|split; [|split]]; [| |reflexivity|].
    + destruct (_ <? 0); reflexivity.
    + destruct (_ <? 0); reflexivity.
    + right. split; [exact Hall|]. split; [reflexivity|].
      exists extra. split; [exact Hin | reflexivity].
Qed.

(** The ways an attach can end. *)
Lemma framework_add_cases (w : world EC) :
  (attach_can_succeed env = false /\
   fst (framework_add ec_xfer env w) <> 0 /\
   xfer_log (snd (framework_add ec_xfer env w)) = xfer_log w /\
   firmware (snd (framework_add ec_xfer env w)) = firmware w /\
   (ec_device (snd (framework_add ec_xfer env w)) = ec_device w \/
    ec_device (snd (framework_add ec_xfer env w)) = None \/
    ec_device (snd (framework_add ec_xfer env w))
    = Some FRAMEWORK_LAPTOP_EC_DEVICE_NAME)) \/
  (attach_can_succeed env = true /\
   fst (framework_add ec_xfer env w) = 0 /\
   xfer_log (snd (framework_add ec_xfer env w)) = kb_get_request :: xfer_log w /\
   ec_device (snd (framework_add ec_xfer env w))
   = Some FRAMEWORK_LAPTOP_EC_DEVICE_NAME).
Proof.
  unfold attach_can_succeed.
  destruct (platform_contains env) eqn:Hp; cbn [andb].
  - destruct (existsb (String.eqb FRAMEWORK_LAPTOP_EC_DEVICE_NAME)
                      (platform_bus env)) eqn:Hbus; cbn [andb].
    + destruct (devm_kzalloc_fails env) eqn:Hk; cbn [negb andb].
      * left. unfold framework_add.
        rewrite dmi_check_system_contains, Hp. cbn [negb].
        unfold bind, bus_find_device_by_name, modify,
          devm_kzalloc_framework_data, pure.
        rewrite Hbus, Hk. cbn.
        split; [reflexivity|]. split; [discriminate|].
        split; [reflexivity|]. split; [reflexivity|]. right; right; reflexivity.
      * destruct (Z.eqb_spec (led_classdev_register_ret env) 0) as [Hz|Hnz].
        -- right.
           destruct (framework_add_complete w Hp Hbus Hk Hz)
             as [status [rx [fw [led [hooks [groups [_ [_ [_ [Hrun _]]]]]]]]]].
           rewrite Hrun. repeat split; reflexivity.
        -- left. unfold framework_add.
           rewrite dmi_check_system_contains, Hp. cbn [negb].
           unfold bind, bus_find_device_by_name, modify,
             devm_kzalloc_framework_data, devm_led_classdev_register, pure.
           rewrite Hbus, Hk. cbn [negb].
           destruct (Z.eqb_spec (led_classdev_register_ret env) 0) as [Hz|_];
             [contradiction|].
           cbn [negb].
           destruct (Z.eqb_spec (led_classdev_register_ret env) 0) as [Hz|_];
             [contradiction|].
           cbn [fst snd].
           split; [reflexivity|]. split; [exact Hnz|].
           split; [reflexivity|]. split; [reflexivity|]. right; right; reflexivity.
    + left. unfold framework_add.
      rewrite dmi_check_system_contains, Hp. cbn [negb].
      unfold bind, bus_find_device_by_name, modify, pure.
      rewrite Hbus. cbn.
      split; [reflexivity|]. split; [discriminate|].
      split; [reflexivity|]. split; [reflexivity|]. right; left; reflexivity.
  - left. unfold framework_add.
    rewrite dmi_check_system_contains, Hp. cbn.
    split; [reflexivity|]. split; [discriminate|].
    split; [reflexivity|]. split; [reflexivity|]. left; reflexivity.
Qed.

End AttachSteps.

(** ** Who writes the EC handle *)

Section Handle.

Context {EC : Type}.
Variable ec_xfer : device -> cros_ec_command -> EC -> Z * list byte * EC.
Variable env : environment.

Lemma same_handle_refl (w : world EC) : same_handle w w.
Proof. split; reflexivity. Qed.

Lemma charge_limit_control_same_handle (modes maxp : Z) (w : world EC) :
  same_handle w (snd (charge_limit_control ec_xfer modes maxp w)).
Proof.
  destruct (ec_device w) as [ec|] eqn:Hd.
  - destruct (ec_xfer ec (chg_limit_request modes maxp) (firmware w))
      as [[status rx] fw] eqn:Hx.
    rewrite (charge_limit_control_present ec_xfer _ _ _ _ _ _ _ Hd Hx).
    split; reflexivity.
  - rewrite (charge_limit_control_absent ec_xfer _ _ _ Hd).
    apply same_handle_refl.
Qed.

Lemma battery_get_threshold_same_handle (buf : string) (w : world EC) :
  same_handle w (snd (battery_get_threshold ec_xfer buf w)).
Proof.
  unfold battery_get_threshold, bind.
  pose proof (charge_limit_control_same_handle CHG_LIMIT_GET_LIMIT 0 w) as H.
  destruct (charge_limit_control ec_xfer CHG_LIMIT_GET_LIMIT 0 w) as [r w1].
  cbn [snd] in H.
  destruct (r <? 0); [exact H|].
  destruct (sysfs_emit_d r). exact H.
Qed.

Lemma battery_set_threshold_same_handle (buf : string) (count : Z)
      (w : world EC) :
  same_handle w (snd (battery_set_threshold ec_xfer buf count w)).
Proof.
  unfold battery_set_threshold.
  destruct (kstrtouint buf 10) as [rv|parsed]; [apply same_handle_refl|].
  destruct (int_of_uint parsed >? 100); [apply same_handle_refl|].
  unfold bind.
  pose proof (charge_limit_control_same_handle CHG_LIMIT_SET_LIMIT
                (uint8_t (int_of_uint parsed)) w) as H.
  destruct (charge_limit_control ec_xfer CHG_LIMIT_SET_LIMIT
              (uint8_t (int_of_uint parsed)) w) as [r w1].
  cbn [snd] in H.
  destruct (r <? 0); exact H.
Qed.

Lemma kb_led_get_same_handle (led : led_classdev) (w : world EC) :
  same_handle w (snd (kb_led_get ec_xfer led w)).
Proof.
  destruct (ec_device w) as [ec|] eqn:Hd.
  - destruct (ec_xfer ec kb_get_request (firmware w)) as [[status rx] fw] eqn:Hx.
    rewrite (kb_led_get_present ec_xfer led w ec status rx fw Hd Hx).
    split; reflexivity.
  - rewrite (kb_led_get_absent ec_xfer led w Hd). apply same_handle_refl.
Qed.

Lemma kb_led_set_same_handle (led : led_classdev) (value : Z) (w : world EC) :
  same_handle w (snd (kb_led_set ec_xfer led value w)).
Proof.
  destruct (ec_device w) as [ec|] eqn:Hd.
  - destruct (ec_xfer ec (kb_set_request value) (firmware w))
      as [[status rx] fw] eqn:Hx.
    rewrite (kb_led_set_present ec_xfer led value w ec status rx fw Hd Hx).
    split; reflexivity.
  - rewrite (kb_led_set_absent ec_xfer led value w Hd). apply same_handle_refl.
Qed.

Lemma battery_add_same_handle (battery : power_supply) (w : world EC) :
  same_handle w (snd (framework_laptop_battery_add env battery w)).
Proof.
  unfold framework_laptop_battery_add, bind, device_add_groups, pure.
  destruct (negb (strcmp (desc_name battery) "BAT1" =? 0));
    [apply same_handle_refl|].
  destruct (Z.eqb_spec (device_add_groups_ret env battery) 0) as [Hz|Hnz].
  - split; reflexivity.
  - destruct (negb (device_add_groups_ret env battery =? 0));
      apply same_handle_refl.
Qed.

Lemma battery_remove_same_handle (battery : power_supply) (w : world EC) :
  same_handle w (snd (framework_laptop_battery_remove battery w)).
Proof. split; reflexivity. Qed.

Lemma framework_remove_handle (w : world EC) :
  ec_device (snd (framework_remove env w)) = ec_device w /\
  ec_refs (snd (framework_remove env w))
  = match ec_device w with
    | Some _ => ec_refs w - 1
    | None => ec_refs w
    end.
Proof.
  rewrite framework_remove_unfold. cbn [snd ec_device ec_refs].
  split; reflexivity.
Qed.

(** C10, as the driver has it: the handle variable is written by attach
    alone, once in every attach that passes the identity check, with the
    result of the device lookup, which also takes the reference; detach
    drops that one reference and leaves the variable as it is; no other
    operation writes the variable or changes the reference count. *)
Theorem ec_device_written_by_attach_only (op : operation) (w : world EC) :
  (op <> Attach -> ec_device (run ec_xfer env op w) = ec_device w) /\
  (op <> Attach -> op <> Detach ->
   ec_refs (run ec_xfer env op w) = ec_refs w) /\
  ec_refs (run ec_xfer env Detach w)
  = match ec_device w with
    | Some _ => ec_refs w - 1
    | None => ec_refs w
    end /\
  (platform_contains env = true ->
   let found := existsb (String.eqb FRAMEWORK_LAPTOP_EC_DEVICE_NAME)
                        (platform_bus env) in
   ec_device (run ec_xfer env Attach w)
   = (if found then Some FRAMEWORK_LAPTOP_EC_DEVICE_NAME else None) /\
   ec_refs (run ec_xfer env Attach w)
   = (if found then ec_refs w + 1 else ec_refs w)) /\
  (platform_contains env = false -> run ec_xfer env Attach w = w).
Proof.
  split; [|split; [|split; [|split]]].
  - intros Hop. destruct op; cbn [run]; try contradiction.
    + apply framework_remove_handle.
    + apply battery_get_threshold_same_handle.
    + apply battery_set_threshold_same_handle.
    + apply kb_led_get_same_handle.
    + apply kb_led_set_same_handle.
    + apply battery_add_same_handle.
    + apply battery_remove_same_handle.
  - intros Hop Hop'. destruct op; cbn [run]; try contradiction.
    + apply battery_get_threshold_same_handle.
    + apply battery_set_threshold_same_handle.
    + apply kb_led_get_same_handle.
    + apply kb_led_set_same_handle.
    + apply battery_add_same_handle.
    + apply battery_remove_same_handle.
  - cbn [run]. apply framework_remove_handle.
  - intros Hp. cbn [run]. cbv zeta.
    destruct (existsb (String.eqb FRAMEWORK_LAPTOP_EC_DEVICE_NAME)
                      (platform_bus env)) eqn:Hbus.
    + destruct (devm_kzalloc_fails env) eqn:Hk.
      * unfold framework_add.
        rewrite dmi_check_system_contains, Hp. cbn [negb].
        unfold bind, bus_find_device_by_name, modify,
          devm_kzalloc_framework_data, pure.
        rewrite Hbus, Hk. split; reflexivity.
      * destruct (Z.eqb_spec (led_classdev_register_ret env) 0) as [Hz|Hnz].
        -- destruct (framework_add_complete ec_xfer env w Hp Hbus Hk Hz)
             as [status [rx [fw [led [hooks [groups [_ [_ [_ [Hrun _]]]]]]]]]].
           rewrite Hrun. split; reflexivity.
        -- unfold framework_add.
           rewrite dmi_check_system_contains, Hp. cbn [negb].
           unfold bind, bus_find_device_by_name, modify,
             devm_kzalloc_framework_data, devm_led_classdev_register, pure.
           rewrite Hbus, Hk. cbn [negb].
           destruct (Z.eqb_spec (led_classdev_register_ret env) 0);
             [contradiction|].
           cbn [negb].
           destruct (Z.eqb_spec (led_classdev_register_ret env) 0);
             [contradiction|].
           split; reflexivity.
    + unfold framework_add.
      rewrite dmi_check_system_contains, Hp. cbn [negb].
      unfold bind, bus_find_device_by_name, modify, pure.
      rewrite Hbus. split; reflexivity.
  - intros Hp. cbn [run].
    rewrite (framework_add_no_match ec_xfer env w Hp). reflexivity.
Qed.

End Handle.

(** * The properties at concrete machines and controllers *)

(** The write path at the text "4294967295": the parser accepts it, the
    [int] comparison lets it through, and the controller is told 255. *)
Example battery_set_threshold_4294967295 :
  let run := battery_set_threshold Sim.echo_xfer "4294967295" 10
               (Sim.attached Sim.ec_state0) in
  fst run = 10 /\
  Sim.limit_max (firmware (snd run)) = byte_of_Z 255 /\
  xfer_log (snd run)
  = chg_limit_request CHG_LIMIT_SET_LIMIT 255
      :: xfer_log (Sim.attached Sim.ec_state0).
Proof. vm_compute. repeat split; reflexivity. Qed.

(** A [count] above SSIZE_MAX comes back negative. *)
Example battery_set_threshold_count_wraps :
  fst (battery_set_threshold Sim.echo_xfer "80" 9223372036854775808
         (Sim.attached Sim.ec_state0))
  = - 9223372036854775808.
Proof. reflexivity. Qed.

(** The same path at "101" and at "256": EINVAL and no transfer. *)
Example battery_set_threshold_101_256 :
  battery_set_threshold Sim.echo_xfer "101" 3 (Sim.attached Sim.ec_state0)
  = (- EINVAL, Sim.attached Sim.ec_state0) /\
  battery_set_threshold Sim.echo_xfer "256" 3 (Sim.attached Sim.ec_state0)
  = (- EINVAL, Sim.attached Sim.ec_state0).
Proof. split; reflexivity. Qed.

Lemma battery_set_threshold_signed_check_witness :
  kstrtouint "4294967295" 10 = inr 4294967295 /\
  2147483648 <= 4294967295 /\
  ec_device (Sim.attached Sim.ec_state0) = Some "cros_ec_lpcs.0" /\
  (100 < 4294967295 /\
   exists msg,
     xfer_log (snd (battery_set_threshold Sim.echo_xfer "4294967295" 10
                      (Sim.attached Sim.ec_state0)))
     = msg :: xfer_log (Sim.attached Sim.ec_state0) /\
     command msg = EC_CMD_CHARGE_LIMIT_CONTROL /\
     load_u8 0 (data msg) = CHG_LIMIT_SET_LIMIT /\
     load_u8 1 (data msg) = 4294967295 mod 256).
Proof.
  split; [reflexivity|].
  split; [lia|].
  split; [reflexivity|].
  apply (battery_set_threshold_signed_check Sim.echo_xfer "4294967295"
           4294967295 10 (Sim.attached Sim.ec_state0) "cros_ec_lpcs.0");
    [reflexivity | lia | reflexivity].
Defined.

Lemma kb_led_get_best_effort_witness :
  kb_led_get Sim.echo_xfer kb_led (Sim.attached Sim.ec_state0)
  = (0, snd (kb_led_get Sim.echo_xfer kb_led (Sim.attached Sim.ec_state0))) /\
  load_u8 ec_response_pwm_get_keyboard_backlight.percent
          (copy_in [byte_of_Z 77; byte_of_Z 0] (data kb_get_request)) = 77 /\
  load_u8 ec_response_pwm_get_keyboard_backlight.enabled
          (copy_in [byte_of_Z 77; byte_of_Z 0] (data kb_get_request)) = 0 /\
  0 <= 0 <= 255 /\
  0 = 0.
Proof.
  split; [reflexivity|].
  split; [reflexivity|].
  split; [reflexivity|].
  destruct (kb_led_get_best_effort Sim.echo_xfer kb_led
              (Sim.attached Sim.ec_state0)
              (snd (kb_led_get Sim.echo_xfer kb_led (Sim.attached Sim.ec_state0)))
              0 eq_refl) as [Hrange [_ Hresp]].
  split; [exact Hrange|].
  destruct (Hresp "cros_ec_lpcs.0" 2 [byte_of_Z 77; byte_of_Z 0] Sim.ec_state0
                  eq_refl eq_refl) as [_ [Hoff _]].
  apply Hoff. reflexivity.
Defined.

Lemma threshold_round_trip_witness :
  0 <= 80 <= 100 /\
  kstrtouint "80" 10 = inr 80 /\
  ec_device (Sim.attached Sim.ec_state0) = Some "cros_ec_lpcs.0" /\
  (let set := battery_set_threshold Sim.echo_xfer "80" 2
                (Sim.attached Sim.ec_state0) in
   let get := battery_get_threshold Sim.echo_xfer "" (snd set) in
   fst set = ssize_t_of_size_t 2 /\
   (0 <= 2 <= SSIZE_MAX -> fst set = 2) /\
   snd (fst get)
   = NilZero.string_of_int (Z.to_int 80) ++ String newline EmptyString /\
   fst (fst get) = Z.of_nat (String.length (snd (fst get))) /\
   kstrtouint (snd (fst get)) 10 = inr 80).
Proof.
  split; [lia|].
  split; [reflexivity|].
  split; [reflexivity|].
  apply (threshold_round_trip 80 2 "80" "" (Sim.attached Sim.ec_state0)
           "cros_ec_lpcs.0"); [lia | reflexivity | reflexivity].
Defined.

Lemma absent_handle_errno_witness :
  ec_device (Sim.detached tt) = None /\
  battery_get_threshold Sim.failing_xfer "" (Sim.detached tt)
  = ((- ENODEV, ""), Sim.detached tt) /\
  battery_set_threshold Sim.failing_xfer "80" 2 (Sim.detached tt)
  = (- ENODEV, Sim.detached tt) /\
  kb_led_set Sim.failing_xfer kb_led 50 (Sim.detached tt)
  = (- EIO, Sim.detached tt) /\
  fst (kb_led_set Sim.failing_xfer kb_led 50 (Sim.attached tt)) = - EIO.
Proof.
  split; [reflexivity|].
  destruct (absent_handle_errno Sim.failing_xfer kb_led 50 "80" 2
              (Sim.detached tt) eq_refl)
    as [Hget [Hset [Hkb [Hfail _]]]].
  split; [reflexivity|].
  split; [apply (Hset 80); [reflexivity | vm_compute; discriminate]|].
  split; [exact Hkb|].
  apply (Hfail (Sim.attached tt) "cros_ec_lpcs.0" (- Sim.EPROTO) [] tt);
    [reflexivity | reflexivity | reflexivity].
Defined.

(** A controller that reports success and sends nothing: the read of the
    charge limit returns 8, the GET_LIMIT mode bit it had put in the
    buffer. *)
Lemma silent_controller_reads_modes : ~ short_response_is_refused.
Proof.
  intros Hclaim.
  specialize (Hclaim unit Sim.silent_xfer (Sim.attached tt) "cros_ec_lpcs.0"
                     CHG_LIMIT_GET_LIMIT 0 0 [] tt eq_refl eq_refl).
  cbn [insize chg_limit_request] in Hclaim.
  specialize (Hclaim ltac:(lia)).
  vm_compute in Hclaim. discriminate.
Qed.

(** One byte received where two are expected: the charge-limit read takes
    it as the limit, the backlight read sees [enabled] still zero. *)
Example one_byte_response :
  fst (charge_limit_control Sim.one_byte_xfer CHG_LIMIT_GET_LIMIT 0
         (Sim.attached tt)) = 60 /\
  fst (kb_led_get Sim.one_byte_xfer kb_led (Sim.attached tt)) = 0.
Proof. split; reflexivity. Qed.

Lemma short_response_is_accepted_witness :
  ec_device (Sim.attached tt) = Some "cros_ec_lpcs.0" /\
  0 <= 0 /\
  Sim.silent_xfer "cros_ec_lpcs.0" (chg_limit_request CHG_LIMIT_GET_LIMIT 0) tt
  = (0, [], tt) /\
  fst (charge_limit_control Sim.silent_xfer CHG_LIMIT_GET_LIMIT 0 (Sim.attached tt))
  = CHG_LIMIT_GET_LIMIT mod 256 /\
  fst (kb_led_get Sim.silent_xfer kb_led (Sim.attached tt)) = 0.
Proof.
  split; [reflexivity|].
  split; [lia|].
  split; [reflexivity|].
  destruct (short_response_is_accepted Sim.silent_xfer CHG_LIMIT_GET_LIMIT 0
              kb_led (Sim.attached tt) "cros_ec_lpcs.0" 0 [] tt
              eq_refl ltac:(lia)) as [Hchg Hkb].
  split.
  - destruct (Hchg eq_refl) as [_ [_ [Hmodes _]]]. apply Hmodes. reflexivity.
  - apply Hkb; [reflexivity | cbn; lia].
Defined.

Lemma framework_add_failure_keeps_handle_witness :
  platform_contains Sim.framework13_no_memory = true /\
  In FRAMEWORK_LAPTOP_EC_DEVICE_NAME (platform_bus Sim.framework13_no_memory) /\
  devm_kzalloc_fails Sim.framework13_no_memory = true /\
  fst (framework_add Sim.silent_xfer Sim.framework13_no_memory (Sim.detached tt)) = - ENOMEM /\
  ec_device (snd (framework_add Sim.silent_xfer Sim.framework13_no_memory (Sim.detached tt)))
  = Some "cros_ec_lpcs.0" /\
  ec_refs (snd (framework_add Sim.silent_xfer Sim.framework13_no_memory (Sim.detached tt))) = 1.
Proof.
  split; [reflexivity|].
  split; [left; reflexivity|].
  split; [reflexivity|].
  destruct (framework_add_failure_keeps_handle Sim.silent_xfer Sim.framework13_no_memory
              (Sim.detached tt) eq_refl (or_introl eq_refl)
              (or_introl eq_refl))
    as [Hret [_ [Hdev [Hrefs _]]]].
  split; [exact Hret|].
  split; [exact Hdev | exact Hrefs].
Defined.

(** The LED registration failing instead: the same handle is left behind. *)
Example framework_add_led_failure :
  fst (framework_add Sim.silent_xfer Sim.framework13_led_busy (Sim.detached tt)) = - 17 /\
  ec_device (snd (framework_add Sim.silent_xfer Sim.framework13_led_busy (Sim.detached tt)))
  = Some "cros_ec_lpcs.0" /\
  ec_refs (snd (framework_add Sim.silent_xfer Sim.framework13_led_busy (Sim.detached tt))) = 1.
Proof. repeat split; reflexivity. Qed.

(** A 12th-generation Framework Laptop: its product string is not "Laptop",
    and attach succeeds on it. *)
Lemma gen12_laptop_attaches : ~ attach_requires_equal_identity.
Proof.
  intros Hclaim.
  specialize (Hclaim unit Sim.silent_xfer Sim.framework13_gen12
                     (Sim.detached tt) eq_refl).
  vm_compute in Hclaim. discriminate.
Qed.

Lemma framework_add_unsupported_system_witness :
  platform_contains Sim.other_vendor = false /\
  fst (framework_add Sim.silent_xfer Sim.other_vendor (Sim.detached tt)) = - ENODEV /\
  snd (framework_add Sim.silent_xfer Sim.other_vendor (Sim.detached tt)) = Sim.detached tt.
Proof.
  split; [reflexivity|].
  destruct (framework_add_unsupported_system Sim.silent_xfer Sim.other_vendor
              (Sim.detached tt) eq_refl) as [Hret [Hw _]].
  split; [exact Hret | exact Hw].
Defined.

Lemma battery_hook_by_name_witness :
  desc_name Sim.BAT0 <> "BAT1" /\
  framework_laptop_battery_add Sim.framework13 Sim.BAT0 (Sim.detached tt)
  = (- ENODEV, Sim.detached tt) /\
  framework_laptop_battery_add Sim.framework13 Sim.BAT1 (Sim.detached tt)
  = (0, set_battery_groups ["BAT1"] (Sim.detached tt)) /\
  framework_laptop_battery_add Sim.framework13_sysfs_full Sim.BAT1 (Sim.detached tt)
  = (- ENODEV, Sim.detached tt).
Proof.
  assert (Hne : desc_name Sim.BAT0 <> "BAT1") by discriminate.
  split; [exact Hne|].
  split.
  - apply (proj1 (battery_hook_by_name Sim.framework13 Sim.BAT0 (Sim.detached tt))).
    exact Hne.
  - destruct (battery_hook_by_name Sim.framework13 Sim.BAT1 (Sim.detached tt))
      as [_ [Hok _]].
    destruct (battery_hook_by_name Sim.framework13_sysfs_full Sim.BAT1
                (Sim.detached tt)) as [_ [_ [Hfail _]]].
    split; [apply Hok; reflexivity|].
    apply Hfail; [reflexivity | discriminate].
Defined.

(** A controller that holds 200 as its limit: the attribute reads "200". *)
Lemma limit_200_is_shown : ~ threshold_text_within_100.
Proof.
  intros Hclaim.
  destruct (Hclaim Sim.ec_state Sim.echo_xfer
              (Sim.attached (Sim.ec_state_limit 200))
              (snd (battery_get_threshold Sim.echo_xfer ""
                      (Sim.attached (Sim.ec_state_limit 200))))
              "" ("200" ++ String newline EmptyString) 4
              eq_refl ltac:(lia)) as [v [Hv Htext]].
  assert (Hparse : kstrtouint ("200" ++ String newline EmptyString) 10 = inr v).
  { rewrite Htext.
    replace v with (Z_of_byte (byte_of_Z v)) at 2
      by (rewrite Z_of_byte_of_Z; apply Z.mod_small; lia).
    replace (NilZero.string_of_int (Z.to_int v))
      with (NilZero.string_of_int (Z.to_int (Z_of_byte (byte_of_Z v))))
      by (rewrite Z_of_byte_of_Z, Z.mod_small by lia; reflexivity).
    apply (sysfs_emit_d_parses (byte_of_Z v)). }
  vm_compute in Hparse. injection Hparse as Hv200. lia.
Qed.

Lemma battery_get_threshold_emits_byte_witness :
  battery_get_threshold Sim.echo_xfer "" (Sim.attached (Sim.ec_state_limit 200))
  = ((4, "200" ++ String newline EmptyString),
     snd (battery_get_threshold Sim.echo_xfer ""
            (Sim.attached (Sim.ec_state_limit 200)))) /\
  0 <= 4 /\
  exists v,
    0 <= v <= 255 /\
    "200" ++ String newline EmptyString
    = NilZero.string_of_int (Z.to_int v) ++ String newline EmptyString /\
    kstrtouint ("200" ++ String newline EmptyString) 10 = inr v.
Proof.
  split; [reflexivity|].
  split; [lia|].
  destruct (battery_get_threshold_emits_byte Sim.echo_xfer ""
              (Sim.attached (Sim.ec_state_limit 200))
              (snd (battery_get_threshold Sim.echo_xfer ""
                      (Sim.attached (Sim.ec_state_limit 200))))
              4 ("200" ++ String newline EmptyString)
              eq_refl ltac:(lia)) as [v [Hv [Htext [_ [Hparse _]]]]].
  exists v. split; [exact Hv|]. split; [exact Htext | exact Hparse].
Defined.

(** After attach and detach on a Framework Laptop, the global still names
    the EC device, whose reference is gone. *)
Lemma detach_keeps_handle : ~ detach_clears_handle.
Proof.
  intros Hclaim.
  specialize (Hclaim unit Sim.framework13 (Sim.attached tt)).
  vm_compute in Hclaim. discriminate.
Qed.

(** And the charge limit can still be read through it. *)
Example read_after_detach :
  let w := snd (framework_remove Sim.framework13 (Sim.attached Sim.ec_state0)) in
  ec_device w = Some "cros_ec_lpcs.0" /\
  ec_refs w = 0 /\
  fst (fst (battery_get_threshold Sim.echo_xfer "" w)) = 4 /\
  xfer_log (snd (battery_get_threshold Sim.echo_xfer "" w))
  = chg_limit_request CHG_LIMIT_GET_LIMIT 0 :: xfer_log w.
Proof. vm_compute. repeat split; reflexivity. Qed.

Lemma ec_device_written_by_attach_only_witness :
  Detach <> Attach /\
  platform_contains Sim.framework13 = true /\
  ec_device (run Sim.echo_xfer Sim.framework13 Detach (Sim.attached Sim.ec_state0))
  = ec_device (Sim.attached Sim.ec_state0) /\
  ec_refs (run Sim.echo_xfer Sim.framework13 Detach (Sim.attached Sim.ec_state0))
  = 0 /\
  ec_device (run Sim.echo_xfer Sim.framework13 Attach (Sim.detached Sim.ec_state0))
  = Some "cros_ec_lpcs.0".
Proof.
  assert (Hne : Detach <> Attach) by discriminate.
  split; [exact Hne|].
  split; [reflexivity|].
  destruct (ec_device_written_by_attach_only Sim.echo_xfer Sim.framework13
              Detach (Sim.attached Sim.ec_state0))
    as [Hdev [_ [Hrefs _]]].
  split; [exact (Hdev Hne)|].
  split; [exact Hrefs|].
  destruct (ec_device_written_by_attach_only Sim.echo_xfer Sim.framework13
              Attach (Sim.detached Sim.ec_state0))
    as [_ [_ [_ [Hattach _]]]].
  exact (proj1 (Hattach eq_refl)).
Defined.

(** * Further properties of the driver *)

(** ** The parser's failures *)

Lemma _kstrtoull_errors (s : string) (base rv : Z) :
  _kstrtoull s base = inl rv -> rv = - EINVAL \/ rv = - ERANGE.
Proof.
  unfold _kstrtoull.
  destruct (_parse_integer s base 0 0) as [[res n] rest].
  destruct (res >? ULLONG_MAX); [intros [= <-]; auto|].
  destruct n; [intros [= <-]; auto|].
  destruct rest as [|c r]; [discriminate|].
  destruct (Ascii.eqb c newline).
  - destruct r; [discriminate | intros [= <-]; auto].
  - intros [= <-]; auto.
Qed.

Lemma kstrtouint_errors (s : string) (base rv : Z) :
  kstrtouint s base = inl rv -> rv = - EINVAL \/ rv = - ERANGE.
Proof.
  unfold kstrtouint.
  destruct (kstrtoull s base) as [rv'|tmp] eqn:Hk.
  - intros [= <-]. unfold kstrtoull in Hk.
    destruct s as [|c s']; [apply (_kstrtoull_errors _ _ _ Hk)|].
    destruct c as [[] [] [] [] [] [] [] []];
      apply (_kstrtoull_errors _ _ _ Hk).
  - destruct (tmp =? tmp mod (UINT_MAX + 1)); [discriminate|].
    intros [= <-]. auto.
Qed.

Lemma sysfs_emit_d_length (b : byte) :
  2 <= snd (sysfs_emit_d (Z_of_byte b)) <= 4.
Proof. destruct b; vm_compute; split; discriminate. Qed.

Lemma byte_of_Z_wraps (v k : Z) : byte_of_Z (v + 256 * k) = byte_of_Z v.
Proof.
  unfold byte_of_Z, uint8_t.
  replace (v + 256 * k) with (v + k * 256) by lia.
  rewrite Z.mod_add by lia. reflexivity.
Qed.

Section Features.

Context {EC : Type}.
Variable ec_xfer : device -> cros_ec_command -> EC -> Z * list byte * EC.

(** The request of the backlight write is fixed by the low byte of the
    value. *)
Lemma kb_led_set_unfold (led : led_classdev) (value : Z) (w : world EC) :
  kb_led_set ec_xfer led value w
  = match ec_device w with
    | None => (- EIO, w)
    | Some ec =>
        let '(status, rx, fw) := ec_xfer ec (kb_set_request value) (firmware w) in
        (if status <? 0 then - EIO else 0,
         after_xfer (kb_set_request value) fw w)
    end.
Proof.
  destruct (ec_device w) as [ec|] eqn:Hd.
  - destruct (ec_xfer ec (kb_set_request value) (firmware w))
      as [[status rx] fw] eqn:Hx.
    apply (kb_led_set_present ec_xfer led value w ec status rx fw Hd Hx).
  - apply kb_led_set_absent. assumption.
Qed.

(** X1: with the handle resolved, the backlight write performs exactly one
    transfer, a KEYBOARD_BACKLIGHT_SET message of one byte holding the low
    eight bits of the value and expecting no response bytes; it returns 0
    exactly when the transfer's status is not negative and EIO otherwise. *)
Theorem kb_led_set_one_transfer (led : led_classdev) (value : Z)
        (w : world EC) (ec : device) :
  ec_device w = Some ec ->
  exists msg,
    xfer_log (snd (kb_led_set ec_xfer led value w)) = msg :: xfer_log w /\
    command msg = EC_CMD_PWM_SET_KEYBOARD_BACKLIGHT /\
    version msg = 0 /\ outsize msg = 1 /\ insize msg = 0 /\
    List.length (data msg) = 1%nat /\
    load_u8 0 (data msg) = value mod 256 /\
    (fst (kb_led_set ec_xfer led value w) = 0 <->
     0 <= fst (fst (ec_xfer ec msg (firmware w)))) /\
    (fst (kb_led_set ec_xfer led value w) = - EIO <->
     fst (fst (ec_xfer ec msg (firmware w))) < 0).
Proof.
  intros Hd. exists (kb_set_request value).
  rewrite kb_led_set_unfold, Hd.
  destruct (ec_xfer ec (kb_set_request value) (firmware w)) as [[status rx] fw].
  cbn [fst snd xfer_log after_xfer].
  split; [reflexivity|].
  split; [reflexivity|].
  split; [reflexivity|].
  split; [reflexivity|].
  split; [reflexivity|].
  split; [reflexivity|].
  split; [unfold load_u8; cbn [data kb_set_request nth]; apply Z_of_byte_of_Z|].
  unfold EIO.
  destruct (Z.ltb_spec status 0); split; split; intros; lia.
Qed.

(** X2: the backlight write looks at the low eight bits of the value only:
    a value and the same value plus a multiple of 256 do the same. *)
Theorem kb_led_set_low_byte (led : led_classdev) (value k : Z) (w : world EC) :
  kb_led_set ec_xfer led (value + 256 * k) w = kb_led_set ec_xfer led value w.
Proof.
  rewrite !kb_led_set_unfold.
  assert (Hreq : kb_set_request (value + 256 * k) = kb_set_request value).
  { unfold kb_set_request. rewrite byte_of_Z_wraps. reflexivity. }
  rewrite Hreq. reflexivity.
Qed.

(** X4: the charge-limit command tells its failures apart: it returns
    ENODEV exactly when the handle is absent, EIO exactly when the handle
    is present and the transfer's status is negative, and a byte value
    otherwise. *)
Theorem charge_limit_control_errno (modes maxp : Z) (w : world EC) :
  (fst (charge_limit_control ec_xfer modes maxp w) = - ENODEV <->
   ec_device w = None) /\
  (fst (charge_limit_control ec_xfer modes maxp w) = - EIO <->
   exists ec,
     ec_device w = Some ec /\
     fst (fst (ec_xfer ec (chg_limit_request modes maxp) (firmware w))) < 0) /\
  (fst (charge_limit_control ec_xfer modes maxp w) = - ENODEV \/
   fst (charge_limit_control ec_xfer modes maxp w) = - EIO \/
   0 <= fst (charge_limit_control ec_xfer modes maxp w) <= 255).
Proof.
  destruct (ec_device w) as [ec|] eqn:Hd.
  - destruct (ec_xfer ec (chg_limit_request modes maxp) (firmware w))
      as [[status rx] fw] eqn:Hx.
    rewrite (charge_limit_control_present ec_xfer _ _ _ _ _ _ _ Hd Hx).
    cbn [fst].
    pose proof (load_u8_range 0 (copy_in rx (data (chg_limit_request modes maxp))))
      as Hr.
    unfold ENODEV, EIO.
    destruct (Z.ltb_spec status 0) as [Hneg|Hpos].
    + split; [split; [lia|discriminate]|].
      split; [|lia].
      split; [intros _; exists ec; rewrite Hx; auto | reflexivity].
    + split; [split; [lia|discriminate]|].
      split; [|lia].
      split; [lia|].
      intros [ec' [[= <-] Hneg]]. rewrite Hx in Hneg. cbn in Hneg. lia.
  - rewrite (charge_limit_control_absent ec_xfer _ _ _ Hd). cbn [fst].
    split; [split; reflexivity|].
    split; [|left; reflexivity].
    unfold ENODEV, EIO. split; [lia|].
    intros [ec [Hec _]]. discriminate.
Qed.

Lemma battery_set_threshold_present (buf : string) (p count : Z)
      (w : world EC) (ec : device) (status : Z) (rx : list byte) (fw : EC) :
  kstrtouint buf 10 = inr p ->
  0 <= p <= 100 ->
  ec_device w = Some ec ->
  ec_xfer ec (chg_limit_request CHG_LIMIT_SET_LIMIT p) (firmware w)
  = (status, rx, fw) ->
  battery_set_threshold ec_xfer buf count w
  = (if status <? 0 then - EIO else ssize_t_of_size_t count,
     after_xfer (chg_limit_request CHG_LIMIT_SET_LIMIT p) fw w).
Proof.
  intros Hparse Hp Hd Hx.
  assert (Hu : uint8_t p = p) by (unfold uint8_t; apply Z.mod_small; lia).
  unfold battery_set_threshold. rewrite Hparse.
  rewrite int_of_uint_small by lia.
  destruct (Z.gtb_spec p 100) as [Hgt|_]; [lia|].
  unfold bind. rewrite Hu.
  rewrite (charge_limit_control_present ec_xfer _ _ _ _ _ _ _ Hd Hx).
  pose proof (load_u8_range 0
                (copy_in rx (data (chg_limit_request CHG_LIMIT_SET_LIMIT p))))
    as Hr.
  destruct (Z.ltb_spec status 0) as [Hneg|Hpos].
  - reflexivity.
  - destruct (Z.ltb_spec
                (load_u8 0 (copy_in rx
                              (data (chg_limit_request CHG_LIMIT_SET_LIMIT p))))
                0); [lia | reflexivity].
Qed.

(** X5: a write of a text that parses to p, 0 to 100, with the handle
    resolved, performs exactly one transfer: SET_LIMIT with p as maximum
    and 0 as minimum.  It returns [count] as [ssize_t] ([count] itself up
    to SSIZE_MAX) when the transfer's status is not negative, whatever
    bytes the controller answered, and EIO otherwise. *)
Theorem battery_set_threshold_sends_limit (buf : string) (p count : Z)
        (w : world EC) (ec : device) (status : Z) (rx : list byte) (fw : EC) :
  kstrtouint buf 10 = inr p ->
  0 <= p <= 100 ->
  ec_device w = Some ec ->
  ec_xfer ec (chg_limit_request CHG_LIMIT_SET_LIMIT p) (firmware w)
  = (status, rx, fw) ->
  battery_set_threshold ec_xfer buf count w
  = (if status <? 0 then - EIO else ssize_t_of_size_t count,
     after_xfer (chg_limit_request CHG_LIMIT_SET_LIMIT p) fw w) /\
  (0 <= count <= SSIZE_MAX -> ssize_t_of_size_t count = count) /\
  load_u8 ec_params_ec_chg_limit_control.modes
          (data (chg_limit_request CHG_LIMIT_SET_LIMIT p)) = 2 /\
  load_u8 ec_params_ec_chg_limit_control.max_percentage
          (data (chg_limit_request CHG_LIMIT_SET_LIMIT p)) = p /\
  load_u8 ec_params_ec_chg_limit_control.min_percentage
          (data (chg_limit_request CHG_LIMIT_SET_LIMIT p)) = 0.
Proof.
  intros Hparse Hp Hd Hx.
  split; [apply (battery_set_threshold_present buf p count w ec status rx fw);
          assumption|].
  split; [apply ssize_t_of_size_t_small|].
  split; [reflexivity|].
  split; [|reflexivity].
  unfold load_u8. cbn [data chg_limit_request nth
                         ec_params_ec_chg_limit_control.max_percentage].
  rewrite Z_of_byte_of_Z. apply Z.mod_small. lia.
Qed.

(** X6: a write whose text the parser refuses returns the parser's error,
    which is EINVAL or ERANGE, and leaves the world as it was: nothing is
    sent to the controller.  The empty text is refused with EINVAL. *)
Theorem battery_set_threshold_parse_error (buf : string) (count rv : Z)
        (w : world EC) :
  kstrtouint buf 10 = inl rv ->
  battery_set_threshold ec_xfer buf count w = (rv, w) /\
  (rv = - EINVAL \/ rv = - ERANGE) /\
  battery_set_threshold ec_xfer "" count w = (- EINVAL, w).
Proof.
  intros Hparse.
  split; [unfold battery_set_threshold; rewrite Hparse; reflexivity|].
  split; [apply (kstrtouint_errors _ _ _ Hparse) | reflexivity].
Qed.

(** What a read that succeeded has emitted. *)
Lemma battery_get_threshold_success (buf : string) (w w' : world EC)
      (n : Z) (text : string) :
  battery_get_threshold ec_xfer buf w = ((n, text), w') ->
  0 <= n ->
  exists b : byte,
    text = fst (sysfs_emit_d (Z_of_byte b)) /\
    n = snd (sysfs_emit_d (Z_of_byte b)) /\
    ec_device w' = ec_device w /\
    ec_device w <> None.
Proof.
  intros Hrun Hn.
  destruct (ec_device w) as [ec|] eqn:Hd.
  - destruct (ec_xfer ec (chg_limit_request CHG_LIMIT_GET_LIMIT 0) (firmware w))
      as [[status rx] fw] eqn:Hx.
    unfold battery_get_threshold, bind in Hrun.
    rewrite (charge_limit_control_present ec_xfer _ _ _ _ _ _ _ Hd Hx) in Hrun.
    destruct (Z.ltb_spec status 0) as [Hneg|Hpos].
    + cbn in Hrun. injection Hrun as <- _ _. unfold EIO in Hn. lia.
    + unfold load_u8 in Hrun.
      set (b := nth 0 (copy_in rx (data (chg_limit_request CHG_LIMIT_GET_LIMIT 0)))
                    Byte.x00) in *.
      pose proof (Z_of_byte_range b) as Hb.
      destruct (Z.ltb_spec (Z_of_byte b) 0) as [Hlt|_]; [lia|].
      destruct (sysfs_emit_d (Z_of_byte b)) as [t m] eqn:He.
      unfold pure in Hrun. injection Hrun as <- <- <-.
      exists b. rewrite He. cbn [fst snd].
      split; [reflexivity|].
      split; [reflexivity|].
      split; [exact Hd | discriminate].
  - rewrite (battery_get_threshold_absent ec_xfer buf w Hd) in Hrun.
    injection Hrun as <- _ _. unfold ENODEV in Hn. lia.
Qed.

(** X7: a read of the attribute either fails with ENODEV or EIO and leaves
    the text buffer as it was, or emits between two and four characters
    and returns their number. *)
Theorem battery_get_threshold_bounds (buf : string) (w : world EC) :
  let out := fst (battery_get_threshold ec_xfer buf w) in
  ((fst out = - ENODEV \/ fst out = - EIO) /\ snd out = buf) \/
  (2 <= fst out <= 4 /\ fst out = Z.of_nat (String.length (snd out))).
Proof.
  cbv zeta.
  destruct (battery_get_threshold ec_xfer buf w) as [[n text] w'] eqn:Hrun.
  cbn [fst snd].
  destruct (Z.ltb_spec n 0) as [Hneg|Hpos].
  - left. unfold battery_get_threshold, bind in Hrun.
    destruct (ec_device w) as [ec|] eqn:Hd.
    + destruct (ec_xfer ec (chg_limit_request CHG_LIMIT_GET_LIMIT 0) (firmware w))
        as [[status rx] fw] eqn:Hx.
      rewrite (charge_limit_control_present ec_xfer _ _ _ _ _ _ _ Hd Hx) in Hrun.
      pose proof (load_u8_range 0
                    (copy_in rx (data (chg_limit_request CHG_LIMIT_GET_LIMIT 0))))
        as Hr.
      destruct (Z.ltb_spec status 0) as [Hs|Hs].
      * cbn in Hrun. injection Hrun as <- <- _. auto.
      * destruct (Z.ltb_spec
                    (load_u8 0 (copy_in rx
                                  (data (chg_limit_request CHG_LIMIT_GET_LIMIT 0))))
                    0) as [Hl|Hl]; [lia|].
        unfold sysfs_emit_d, pure in Hrun. injection Hrun as <- _ _. lia.
    + rewrite (charge_limit_control_absent ec_xfer _ _ _ Hd) in Hrun.
      cbn in Hrun. injection Hrun as <- <- _. auto.
  - right.
    destruct (battery_get_threshold_success buf w w' n text Hrun Hpos)
      as [b [-> [-> _]]].
    split; [apply sysfs_emit_d_length | reflexivity].
Qed.

End Features.

(** ** Reading and writing in sequence *)

Section Composition.

Context {EC : Type}.
Variable ec_xfer : device -> cros_ec_command -> EC -> Z * list byte * EC.

(** X8: the text a successful read has emitted is accepted by the parser
    of the write path, with the value v that was read.  Written back, it
    makes the driver send one SET_LIMIT message carrying v when v is at
    most 100, and is refused with EINVAL, nothing being sent, when the
    controller had reported more than 100. *)
Theorem show_then_store (buf : string) (count : Z) (w w1 : world EC)
        (n : Z) (text : string) :
  battery_get_threshold ec_xfer buf w = ((n, text), w1) ->
  0 <= n ->
  exists v,
    0 <= v <= 255 /\
    kstrtouint text 10 = inr v /\
    (100 < v ->
     battery_set_threshold ec_xfer text count w1 = (- EINVAL, w1)) /\
    (v <= 100 ->
     xfer_log (snd (battery_set_threshold ec_xfer text count w1))
     = chg_limit_request CHG_LIMIT_SET_LIMIT v :: xfer_log w1).
Proof.
  intros Hrun Hn.
  destruct (battery_get_threshold_success ec_xfer buf w w1 n text Hrun Hn)
    as [b [Htext [_ [Hdev Hsome]]]].
  pose proof (Z_of_byte_range b) as Hb.
  assert (Hparse : kstrtouint text 10 = inr (Z_of_byte b))
    by (rewrite Htext; apply sysfs_emit_d_parses).
  exists (Z_of_byte b).
  split; [exact Hb|].
  split; [exact Hparse|].
  split.
  - intros Hbig.
    apply (battery_set_threshold_rejects ec_xfer text (Z_of_byte b) count w1 Hparse).
    lia.
  - intros Hsmall.
    destruct (ec_device w1) as [ec|] eqn:Hd1; [|congruence].
    destruct (ec_xfer ec (chg_limit_request CHG_LIMIT_SET_LIMIT (Z_of_byte b))
                      (firmware w1)) as [[status rx] fw] eqn:Hx.
    rewrite (battery_set_threshold_present ec_xfer text (Z_of_byte b) count w1
               ec status rx fw Hparse ltac:(lia) Hd1 Hx).
    reflexivity.
Qed.

End Composition.

(** X3: against the controller that keeps the brightness it is sent, a
    backlight write followed by a backlight read succeeds and reads back
    the low eight bits of the value written. *)
Theorem backlight_round_trip (value : Z) (w : world Sim.ec_state) (ec : device) :
  ec_device w = Some ec ->
  fst (kb_led_set Sim.echo_xfer kb_led value w) = 0 /\
  fst (kb_led_get Sim.echo_xfer kb_led
         (snd (kb_led_set Sim.echo_xfer kb_led value w)))
  = value mod 256.
Proof.
  intros Hd.
  assert (Hx : Sim.echo_xfer ec (kb_set_request value) (firmware w)
               = (0, [],
                  {| Sim.limit_max := Sim.limit_max (firmware w);
                     Sim.limit_min := Sim.limit_min (firmware w);
                     Sim.backlight_percent := byte_of_Z value;
                     Sim.backlight_enabled := byte_of_Z 1 |}))
    by reflexivity.
  rewrite (kb_led_set_present Sim.echo_xfer kb_led value w ec _ _ _ Hd Hx).
  cbn [fst snd Z.ltb Z.compare].
  split; [reflexivity|].
  match goal with
  | |- context [kb_led_get _ _ ?w1] =>
      assert (Hd1 : ec_device w1 = Some ec) by exact Hd;
      assert (Hx1 : Sim.echo_xfer ec kb_get_request (firmware w1)
                    = (2, [byte_of_Z value; byte_of_Z 1], firmware w1))
        by reflexivity;
      rewrite (kb_led_get_present Sim.echo_xfer kb_led w1 ec _ _ _ Hd1 Hx1)
  end.
  cbn [fst Z.ltb Z.compare].
  change (load_u8 1 (copy_in [byte_of_Z value; byte_of_Z 1] (data kb_get_request)))
    with 1.
  cbn [Z.eqb].
  change (load_u8 0 (copy_in [byte_of_Z value; byte_of_Z 1] (data kb_get_request)))
    with (Z_of_byte (byte_of_Z value)).
  apply Z_of_byte_of_Z.
Qed.

(** ** Transfers per operation *)

Section TransferCount.

Context {EC : Type}.
Variable ec_xfer : device -> cros_ec_command -> EC -> Z * list byte * EC.
Variable env : environment.

Lemma no_transfer_refl (w : world EC) : no_transfer w w.
Proof. split; reflexivity. Qed.

Lemma charge_limit_control_transfers (modes maxp : Z) (w : world EC) :
  at_most_one_transfer w (snd (charge_limit_control ec_xfer modes maxp w)) /\
  (ec_device w = None ->
   no_transfer w (snd (charge_limit_control ec_xfer modes maxp w))).
Proof.
  destruct (ec_device w) as [ec|] eqn:Hd.
  - destruct (ec_xfer ec (chg_limit_request modes maxp) (firmware w))
      as [[status rx] fw] eqn:Hx.
    rewrite (charge_limit_control_present ec_xfer _ _ _ _ _ _ _ Hd Hx).
    split; [|discriminate].
    right. exists (chg_limit_request modes maxp). reflexivity.
  - rewrite (charge_limit_control_absent ec_xfer _ _ _ Hd).
    split; [left|intros _]; apply no_transfer_refl.
Qed.

Lemma battery_get_threshold_transfers (buf : string) (w : world EC) :
  at_most_one_transfer w (snd (battery_get_threshold ec_xfer buf w)) /\
  (ec_device w = None ->
   no_transfer w (snd (battery_get_threshold ec_xfer buf w))).
Proof.
  unfold battery_get_threshold, bind.
  pose proof (charge_limit_control_transfers CHG_LIMIT_GET_LIMIT 0 w) as H.
  destruct (charge_limit_control ec_xfer CHG_LIMIT_GET_LIMIT 0 w) as [r w1].
  cbn [snd] in H.
  destruct (r <? 0); [exact H|].
  destruct (sysfs_emit_d r). exact H.
Qed.

Lemma battery_set_threshold_transfers (buf : string) (count : Z) (w : world EC) :
  at_most_one_transfer w (snd (battery_set_threshold ec_xfer buf count w)) /\
  (ec_device w = None ->
   no_transfer w (snd (battery_set_threshold ec_xfer buf count w))).
Proof.
  unfold battery_set_threshold.
  destruct (kstrtouint buf 10) as [rv|parsed];
    [split; [left|intros _]; apply no_transfer_refl|].
  destruct (int_of_uint parsed >? 100);
    [split; [left|intros _]; apply no_transfer_refl|].
  unfold bind.
  pose proof (charge_limit_control_transfers CHG_LIMIT_SET_LIMIT
                (uint8_t (int_of_uint parsed)) w) as H.
  destruct (charge_limit_control ec_xfer CHG_LIMIT_SET_LIMIT
              (uint8_t (int_of_uint parsed)) w) as [r w1].
  cbn [snd] in H.
  destruct (r <? 0); exact H.
Qed.

Lemma kb_led_get_transfers (led : led_classdev) (w : world EC) :
  at_most_one_transfer w (snd (kb_led_get ec_xfer led w)) /\
  (ec_device w = None -> no_transfer w (snd (kb_led_get ec_xfer led w))).
Proof.
  destruct (ec_device w) as [ec|] eqn:Hd.
  - destruct (ec_xfer ec kb_get_request (firmware w)) as [[status rx] fw] eqn:Hx.
    rewrite (kb_led_get_present ec_xfer led w ec status rx fw Hd Hx).
    split; [|discriminate].
    right. exists kb_get_request. reflexivity.
  - rewrite (kb_led_get_absent ec_xfer led w Hd).
    split; [left|intros _]; apply no_transfer_refl.
Qed.

Lemma kb_led_set_transfers (led : led_classdev) (value : Z) (w : world EC) :
  at_most_one_transfer w (snd (kb_led_set ec_xfer led value w)) /\
  (ec_device w = None -> no_transfer w (snd (kb_led_set ec_xfer led value w))).
Proof.
  destruct (ec_device w) as [ec|] eqn:Hd.
  - destruct (ec_xfer ec (kb_set_request value) (firmware w))
      as [[status rx] fw] eqn:Hx.
    rewrite (kb_led_set_present ec_xfer led value w ec status rx fw Hd Hx).
    split; [|discriminate].
    right. exists (kb_set_request value). reflexivity.
  - rewrite (kb_led_set_absent ec_xfer led value w Hd).
    split; [left|intros _]; apply no_transfer_refl.
Qed.

Lemma framework_remove_no_transfer (w : world EC) :
  no_transfer w (snd (framework_remove env w)).
Proof. rewrite framework_remove_unfold. split; reflexivity. Qed.

Lemma battery_add_no_transfer (battery : power_supply) (w : world EC) :
  no_transfer w (snd (framework_laptop_battery_add env battery w)).
Proof.
  destruct (battery_add_cases env battery w) as [Hok|[_ Hsame]].
  - rewrite Hok. split; reflexivity.
  - rewrite Hsame. apply no_transfer_refl.
Qed.

(** X9: every operation sends at most one message to the controller.  A
    message is sent only by a charge-limit or backlight operation run with
    the handle set, or by an attach in which every step succeeds: the LED
    core then reads the brightness once through [kb_led_get].  Detach and
    the battery callbacks send none.  When nothing is sent the
    controller's state is the same afterwards. *)
Theorem one_transfer_per_operation (op : operation) (w : world EC) :
  (xfer_log (run ec_xfer env op w) = xfer_log w /\
   firmware (run ec_xfer env op w) = firmware w) \/
  (exists msg,
      xfer_log (run ec_xfer env op w) = msg :: xfer_log w /\
      ((is_feature_operation op = true /\ ec_device w <> None) \/
       (op = Attach /\ msg = kb_get_request /\
        attach_can_succeed env = true))).
Proof.
  assert (Hfeature :
            forall w',
              at_most_one_transfer w w' /\ (ec_device w = None -> no_transfer w w') ->
              is_feature_operation op = true ->
              (xfer_log w' = xfer_log w /\ firmware w' = firmware w) \/
              (exists msg,
                  xfer_log w' = msg :: xfer_log w /\
                  ((is_feature_operation op = true /\ ec_device w <> None) \/
                   (op = Attach /\ msg = kb_get_request /\
                    attach_can_succeed env = true)))).
  { intros w' [Hone Habsent] Hf.
    destruct (ec_device w) as [ec|] eqn:Hd.
    - destruct Hone as [Hno|[msg Hmsg]]; [left; exact Hno|].
      right. exists msg. split; [exact Hmsg|].
      left. split; [exact Hf | discriminate].
    - left. apply Habsent. reflexivity. }
  destruct op; cbn [run].
  - destruct (framework_add_cases ec_xfer env w)
      as [[_ [_ [Hlog [Hfw _]]]]|[Hok [_ [Hlog _]]]].
    + left. split; assumption.
    + right. exists kb_get_request. split; [exact Hlog|].
      right. repeat split. exact Hok.
  - left. apply framework_remove_no_transfer.
  - apply Hfeature; [apply battery_get_threshold_transfers | reflexivity].
  - apply Hfeature; [apply battery_set_threshold_transfers | reflexivity].
  - apply Hfeature; [apply kb_led_get_transfers | reflexivity].
  - apply Hfeature; [apply kb_led_set_transfers | reflexivity].
  - left. apply battery_add_no_transfer.
  - left. split; reflexivity.
Qed.

Lemma run_handle (op : operation) (w : world EC) :
  handle_names_ec w -> handle_names_ec (run ec_xfer env op w).
Proof.
  intros Hw. unfold handle_names_ec in *.
  destruct op; cbn [run].
  - destruct (framework_add_cases ec_xfer env w)
      as [[_ [_ [_ [_ [Hd|[Hd|Hd]]]]]]|[_ [_ [_ Hd]]]];
      rewrite Hd; auto.
  - rewrite (proj1 (framework_remove_handle env w)). exact Hw.
  - rewrite (proj1 (battery_get_threshold_same_handle ec_xfer buf w)). exact Hw.
  - rewrite (proj1 (battery_set_threshold_same_handle ec_xfer buf count w)).
    exact Hw.
  - rewrite (proj1 (kb_led_get_same_handle ec_xfer kb_led w)). exact Hw.
  - rewrite (proj1 (kb_led_set_same_handle ec_xfer kb_led value w)). exact Hw.
  - rewrite (proj1 (battery_add_same_handle env battery w)). exact Hw.
  - exact Hw.
Qed.

Lemma run_log_length (op : operation) (w : world EC) :
  (List.length (xfer_log (run ec_xfer env op w))
   <= List.length (xfer_log w) + (if may_transfer op then 1 else 0))%nat.
Proof.
  assert (Hone : forall w', at_most_one_transfer w w' ->
                            (List.length (xfer_log w')
                             <= List.length (xfer_log w) + 1)%nat).
  { intros w' [[Hlog _]|[msg Hlog]]; rewrite Hlog; cbn [List.length]; lia. }
  assert (Hnone : forall w', no_transfer w w' ->
                             (List.length (xfer_log w')
                              <= List.length (xfer_log w) + 0)%nat).
  { intros w' [Hlog _]. rewrite Hlog. lia. }
  destruct op; cbn [run may_transfer].
  - destruct (framework_add_cases ec_xfer env w)
      as [[_ [_ [Hlog _]]]|[_ [_ [Hlog _]]]];
      rewrite Hlog; cbn [List.length]; lia.
  - apply Hnone, framework_remove_no_transfer.
  - apply Hone, battery_get_threshold_transfers.
  - apply Hone, battery_set_threshold_transfers.
  - apply Hone, kb_led_get_transfers.
  - apply Hone, kb_led_set_transfers.
  - apply Hnone, battery_add_no_transfer.
  - apply Hnone. split; reflexivity.
Qed.

(** X13: through every sequence of operations, from a world whose handle
    is NULL or names the EC device, the handle stays NULL or the EC
    device, and the number of messages sent grows by no more than the
    number of attaches and charge-limit and backlight operations in the
    sequence. *)
Theorem run_all_invariant (ops : list operation) (w : world EC) :
  handle_names_ec w ->
  handle_names_ec (run_all ec_xfer env ops w) /\
  (List.length (xfer_log (run_all ec_xfer env ops w))
   <= List.length (xfer_log w)
      + List.length (filter may_transfer ops))%nat.
Proof.
  revert w. induction ops as [|op ops IH]; intros w Hw.
  - cbn. split; [exact Hw | lia].
  - cbn [run_all fold_left filter].
    destruct (IH (run ec_xfer env op w) (run_handle op w Hw)) as [Hh Hl].
    split; [exact Hh|].
    unfold run_all in Hl.
    pose proof (run_log_length op w) as Hop.
    destruct (may_transfer op); cbn [List.length]; lia.
Qed.

End TransferCount.

(** ** Attach and detach, step by step *)

Lemma filter_keeps_others (name : string) (l : list string) :
  ~ In name l -> filter (fun n => negb (String.eqb n name)) l = l.
Proof.
  induction l as [|x l IH]; intros Hnot; [reflexivity|].
  cbn [filter].
  destruct (String.eqb_spec x name) as [->|Hne].
  - exfalso. apply Hnot. left. reflexivity.
  - cbn [negb]. rewrite IH; [reflexivity|].
    intros Hin. apply Hnot. right. exact Hin.
Qed.

Lemma filter_twice (name : string) (l : list string) :
  filter (fun n => negb (String.eqb n name))
         (filter (fun n => negb (String.eqb n name)) l)
  = filter (fun n => negb (String.eqb n name)) l.
Proof. apply filter_keeps_others, filter_not_in. Qed.

Section Steps.

Context {EC : Type}.
Variable ec_xfer : device -> cros_ec_command -> EC -> Z * list byte * EC.
Variable env : environment.

Lemma bus_lookup_missing (name : string) :
  ~ In name (platform_bus env) ->
  existsb (String.eqb name) (platform_bus env) = false.
Proof.
  intros Hnot.
  destruct (existsb (String.eqb name) (platform_bus env)) eqn:He; [|reflexivity].
  apply existsb_exists in He. destruct He as [x [Hin Heq]].
  apply String.eqb_eq in Heq. subst x. contradiction.
Qed.

Lemma attach_can_succeed_steps :
  attach_can_succeed env = true ->
  platform_contains env = true /\
  existsb (String.eqb FRAMEWORK_LAPTOP_EC_DEVICE_NAME) (platform_bus env) = true /\
  devm_kzalloc_fails env = false /\
  led_classdev_register_ret env = 0.
Proof.
  unfold attach_can_succeed. rewrite !andb_true_iff.
  intros [[[Hp Hbus] Hk] Hled].
  apply negb_true_iff in Hk. apply Z.eqb_eq in Hled. auto.
Qed.

(** X10: attach returns 0 exactly when the identity check passes, the EC
    device is on the platform bus, the driver data can be allocated and
    the LED registration returns 0.  It then has set the handle to the EC
    device with one reference taken, and registered the keyboard backlight
    LED (maximum brightness 100), whose brightness the LED core has read
    with one KEYBOARD_BACKLIGHT_GET message.  The battery hook is
    registered, with the group installed on every battery, when the add
    callback takes every battery of the system; when it refuses one, the
    hook is unregistered again. *)
Theorem framework_add_success (w : world EC) :
  (fst (framework_add ec_xfer env w) = 0 <-> attach_can_succeed env = true) /\
  (attach_can_succeed env = true ->
   exists led,
     ec_device (snd (framework_add ec_xfer env w))
     = Some FRAMEWORK_LAPTOP_EC_DEVICE_NAME /\
     ec_refs (snd (framework_add ec_xfer env w)) = ec_refs w + 1 /\
     xfer_log (snd (framework_add ec_xfer env w))
     = kb_get_request :: xfer_log w /\
     leds (snd (framework_add ec_xfer env w)) = led :: leds w /\
     devres (snd (framework_add ec_xfer env w))
     = Devm_led led :: Devm_framework_data :: devres w /\
     led_name led = "framework_acpi::kbd_backlight" /\
     max_brightness led = 100 /\
     hook_outcome env w
       (battery_hooks (snd (framework_add ec_xfer env w)))
       (battery_groups (snd (framework_add ec_xfer env w)))).
Proof.
  split.
  - destruct (framework_add_cases ec_xfer env w)
      as [[Hno [Hne _]]|[Hok [Hz _]]].
    + rewrite Hno. split; [contradiction | discriminate].
    + split; [intros _; exact Hok | intros _; exact Hz].
  - intros Hok.
    destruct (attach_can_succeed_steps Hok) as [Hp [Hbus [Hk Hled]]].
    destruct (framework_add_complete ec_xfer env w Hp Hbus Hk Hled)
      as [status [rx [fw [led [hooks [groups [_ [Hname [Hmax [Hrun Hout]]]]]]]]]].
    exists led. rewrite Hrun.
    cbn [snd ec_device ec_refs xfer_log leds devres battery_hooks battery_groups].
    repeat (split; [reflexivity|]).
    split; [exact Hname|]. split; [exact Hmax | exact Hout].
Qed.

(** X11: when the identity check passes and the EC device is not on the
    platform bus, attach fails with EINVAL and has written NULL to the
    handle, whatever the handle held before; nothing else has changed. *)
Theorem framework_add_no_ec_device (w : world EC) :
  platform_contains env = true ->
  ~ In FRAMEWORK_LAPTOP_EC_DEVICE_NAME (platform_bus env) ->
  framework_add ec_xfer env w = (- EINVAL, set_ec_device None w) /\
  ec_device (snd (framework_add ec_xfer env w)) = None.
Proof.
  intros Hp Hbus. unfold framework_add.
  rewrite dmi_check_system_contains, Hp. cbn [negb].
  unfold bind, bus_find_device_by_name, modify, pure.
  rewrite (bus_lookup_missing _ Hbus). split; reflexivity.
Qed.

(** X15: detach unregisters the driver's battery hook and keeps every other
    hook.  Through the hook's remove callback it takes the attribute group
    off every battery of the system and leaves the groups of all other
    names as they are.  It leaves the registered LED devices and the
    managed resources as they are. *)
Theorem framework_remove_effects (w : world EC) :
  ~ In framework_laptop_battery_hook
       (battery_hooks (snd (framework_remove env w))) /\
  (forall h,
      h <> framework_laptop_battery_hook ->
      (In h (battery_hooks (snd (framework_remove env w))) <->
       In h (battery_hooks w))) /\
  (forall b,
      In b (acpi_battery_list env) ->
      ~ In (desc_name b) (battery_groups (snd (framework_remove env w)))) /\
  (forall n,
      ~ In n (map desc_name (acpi_battery_list env)) ->
      (In n (battery_groups (snd (framework_remove env w))) <->
       In n (battery_groups w))) /\
  leds (snd (framework_remove env w)) = leds w /\
  devres (snd (framework_remove env w)) = devres w.
Proof.
  rewrite framework_remove_unfold.
  cbn [snd battery_hooks leds devres battery_groups].
  split; [apply filter_not_in|].
  split.
  - intros h Hne. rewrite filter_In.
    split; [intros [Hin _]; exact Hin|].
    intros Hin. split; [exact Hin|].
    destruct (String.eqb_spec h framework_laptop_battery_hook); [contradiction|].
    reflexivity.
  - split; [intros b Hb; apply groups_without_not_in; exact Hb|].
    split; [intros n Hn; apply groups_without_other; exact Hn|].
    split; reflexivity.
Qed.

Lemma one_cycle (w : world EC) :
  attach_can_succeed env = true ->
  ~ In framework_laptop_battery_hook (battery_hooks w) ->
  let w' := snd (framework_remove env (snd (framework_add ec_xfer env w))) in
  ec_device w' = Some FRAMEWORK_LAPTOP_EC_DEVICE_NAME /\
  ec_refs w' = ec_refs w /\
  battery_hooks w' = battery_hooks w /\
  ((forall b, In b (acpi_battery_list env) ->
              ~ In (desc_name b) (battery_groups w)) ->
   battery_groups w' = battery_groups w).
Proof.
  intros Hok Hnot. cbv zeta.
  destruct (attach_can_succeed_steps Hok) as [Hp [Hbus [Hk Hled]]].
  destruct (framework_add_complete ec_xfer env w Hp Hbus Hk Hled)
    as [status [rx [fw [led [hooks [groups [_ [_ [_ [Hrun Hout]]]]]]]]]].
  rewrite Hrun. cbn [snd].
  rewrite framework_remove_unfold.
  cbn [snd ec_device ec_refs battery_hooks battery_groups].
  split; [reflexivity|].
  split; [lia|].
  assert (Hhead : filter (fun h => negb (String.eqb h framework_laptop_battery_hook))
                         (framework_laptop_battery_hook :: battery_hooks w)
                  = battery_hooks w).
  { cbn [filter]. rewrite String.eqb_refl. cbn [negb].
    apply filter_keeps_others. exact Hnot. }
  destruct Hout as [[_ [Hhooks Hgroups]]|[_ [Hhooks [extra [Hin Hgroups]]]]];
    subst hooks groups.
  - split; [exact Hhead|].
    intros Hfree. apply groups_without_added; [|exact Hfree].
    intros n Hn. apply in_map_iff in Hn. destruct Hn as [b [Hb Hinb]].
    apply in_map_iff. exists b. split; [exact Hb|].
    apply in_rev. exact Hinb.
  - split.
    + rewrite Hhead. apply filter_keeps_others. exact Hnot.
    + intros Hfree.
      rewrite (groups_without_added _ extra _ Hin Hfree).
      apply (groups_without_added _ [] _); [intros n []|exact Hfree].
Qed.

(** X12: on a machine where every step of attach succeeds, from a world in
    which the driver's battery hook is not registered, any number of
    attach/detach cycles leaves the reference count and the registered
    battery hooks as they were at the start, and so the installed
    attribute groups when no battery of the system carried the group at
    the start; after at least one cycle the handle still names the EC
    device. *)
Theorem attach_detach_balanced (n : nat) (w : world EC) :
  attach_can_succeed env = true ->
  ~ In framework_laptop_battery_hook (battery_hooks w) ->
  ec_refs (attach_detach_cycles ec_xfer env n w) = ec_refs w /\
  battery_hooks (attach_detach_cycles ec_xfer env n w) = battery_hooks w /\
  ((forall b, In b (acpi_battery_list env) ->
              ~ In (desc_name b) (battery_groups w)) ->
   battery_groups (attach_detach_cycles ec_xfer env n w) = battery_groups w) /\
  ((0 < n)%nat ->
   ec_device (attach_detach_cycles ec_xfer env n w)
   = Some FRAMEWORK_LAPTOP_EC_DEVICE_NAME).
Proof.
  intros Hok Hnot.
  induction n as [|n IH].
  - cbn. repeat split; try reflexivity. lia.
  - destruct IH as [Hrefs [Hhooks [Hgroups _]]].
    unfold attach_detach_cycles in *. rewrite Nat.iter_succ.
    set (wn := Nat.iter n
                 (fun w' => snd (framework_remove env
                                   (snd (framework_add ec_xfer env w'))))
                 w) in *.
    assert (Hnot' : ~ In framework_laptop_battery_hook (battery_hooks wn))
      by (rewrite Hhooks; exact Hnot).
    destruct (one_cycle wn Hok Hnot') as [Hd [Hr [Hh Hg]]].
    split; [rewrite Hr; exact Hrefs|].
    split; [rewrite Hh; exact Hhooks|].
    split; [|intros _; exact Hd].
    intros Hfree. rewrite Hg; [exact (Hgroups Hfree)|].
    rewrite (Hgroups Hfree). exact Hfree.
Qed.

(** X14: for a battery that does not carry the attribute group, the add
    callback followed by the remove callback leaves the installed groups
    as they were, whether or not the installation succeeded; the remove
    callback done twice leaves the same world as done once. *)
Theorem battery_add_then_remove (battery : power_supply) (w : world EC) :
  ~ In (desc_name battery) (battery_groups w) ->
  battery_groups
    (snd (framework_laptop_battery_remove battery
            (snd (framework_laptop_battery_add env battery w))))
  = battery_groups w /\
  snd (framework_laptop_battery_remove battery
         (snd (framework_laptop_battery_remove battery w)))
  = snd (framework_laptop_battery_remove battery w).
Proof.
  intros Hnot. split.
  - unfold framework_laptop_battery_add, bind, device_add_groups, pure.
    destruct (negb (strcmp (desc_name battery) "BAT1" =? 0)).
    + cbn. apply filter_keeps_others. exact Hnot.
    + destruct (Z.eqb_spec (device_add_groups_ret env battery) 0) as [Hz|Hnz].
      * cbn. rewrite String.eqb_refl. cbn [negb].
        apply filter_keeps_others. exact Hnot.
      * destruct (negb (device_add_groups_ret env battery =? 0));
          cbn; apply filter_keeps_others; exact Hnot.
  - unfold framework_laptop_battery_remove, bind, device_remove_groups,
      modify, pure, set_battery_groups.
    cbn [snd ec_device firmware xfer_log ec_refs devres leds battery_hooks
         battery_groups].
    rewrite filter_twice. reflexivity.
Qed.

End Steps.

(** ** The further properties at concrete machines and controllers *)

Lemma kb_led_set_one_transfer_witness :
  ec_device (Sim.attached Sim.ec_state0) = Some "cros_ec_lpcs.0" /\
  exists msg,
    xfer_log (snd (kb_led_set Sim.echo_xfer kb_led 356
                     (Sim.attached Sim.ec_state0)))
    = msg :: xfer_log (Sim.attached Sim.ec_state0) /\
    command msg = EC_CMD_PWM_SET_KEYBOARD_BACKLIGHT /\
    load_u8 0 (data msg) = 356 mod 256.
Proof.
  split; [reflexivity|].
  destruct (kb_led_set_one_transfer Sim.echo_xfer kb_led 356
              (Sim.attached Sim.ec_state0) "cros_ec_lpcs.0" eq_refl)
    as [msg [Hlog [Hcmd [_ [_ [_ [_ [Hb _]]]]]]]].
  exists msg. split; [exact Hlog|]. split; [exact Hcmd | exact Hb].
Defined.

Lemma backlight_round_trip_witness :
  ec_device (Sim.attached Sim.ec_state0) = Some "cros_ec_lpcs.0" /\
  fst (kb_led_set Sim.echo_xfer kb_led 50 (Sim.attached Sim.ec_state0)) = 0 /\
  fst (kb_led_get Sim.echo_xfer kb_led
         (snd (kb_led_set Sim.echo_xfer kb_led 50 (Sim.attached Sim.ec_state0))))
  = 50 mod 256.
Proof.
  split; [reflexivity|].
  apply (backlight_round_trip 50 (Sim.attached Sim.ec_state0) "cros_ec_lpcs.0").
  reflexivity.
Defined.

Lemma battery_set_threshold_sends_limit_witness :
  kstrtouint "80" 10 = inr 80 /\
  0 <= 80 <= 100 /\
  ec_device (Sim.attached Sim.ec_state0) = Some "cros_ec_lpcs.0" /\
  battery_set_threshold Sim.echo_xfer "80" 2 (Sim.attached Sim.ec_state0)
  = (2,
     after_xfer (chg_limit_request CHG_LIMIT_SET_LIMIT 80)
       (Sim.ec_state_limit 80) (Sim.attached Sim.ec_state0)).
Proof.
  split; [reflexivity|].
  split; [lia|].
  split; [reflexivity|].
  apply (proj1 (battery_set_threshold_sends_limit Sim.echo_xfer "80" 80 2
                  (Sim.attached Sim.ec_state0) "cros_ec_lpcs.0"
                  2 [byte_of_Z 80; Byte.x00] (Sim.ec_state_limit 80)
                  eq_refl ltac:(lia) eq_refl eq_refl)).
Defined.

Lemma battery_set_threshold_parse_error_witness :
  kstrtouint "max" 10 = inl (- EINVAL) /\
  battery_set_threshold Sim.echo_xfer "max" 3 (Sim.attached Sim.ec_state0)
  = (- EINVAL, Sim.attached Sim.ec_state0).
Proof.
  split; [reflexivity|].
  apply (proj1 (battery_set_threshold_parse_error Sim.echo_xfer "max" 3
                  (- EINVAL) (Sim.attached Sim.ec_state0) eq_refl)).
Defined.

Lemma show_then_store_witness :
  battery_get_threshold Sim.echo_xfer "" (Sim.attached (Sim.ec_state_limit 200))
  = ((4, "200" ++ String newline EmptyString),
     snd (battery_get_threshold Sim.echo_xfer ""
            (Sim.attached (Sim.ec_state_limit 200)))) /\
  0 <= 4 /\
  exists v,
    kstrtouint ("200" ++ String newline EmptyString) 10 = inr v /\
    (100 < v ->
     fst (battery_set_threshold Sim.echo_xfer
            ("200" ++ String newline EmptyString) 4
            (snd (battery_get_threshold Sim.echo_xfer ""
                    (Sim.attached (Sim.ec_state_limit 200)))))
     = - EINVAL).
Proof.
  split; [reflexivity|].
  split; [lia|].
  destruct (show_then_store Sim.echo_xfer "" 4
              (Sim.attached (Sim.ec_state_limit 200))
              (snd (battery_get_threshold Sim.echo_xfer ""
                      (Sim.attached (Sim.ec_state_limit 200))))
              4 ("200" ++ String newline EmptyString)
              eq_refl ltac:(lia)) as [v [_ [Hparse [Hbig _]]]].
  exists v. split; [exact Hparse|].
  intros Hv. rewrite (Hbig Hv). reflexivity.
Defined.

Lemma framework_add_no_ec_device_witness :
  platform_contains framework13_without_ec = true /\
  ~ In FRAMEWORK_LAPTOP_EC_DEVICE_NAME (platform_bus framework13_without_ec) /\
  framework_add Sim.silent_xfer framework13_without_ec (Sim.attached tt)
  = (- EINVAL, set_ec_device None (Sim.attached tt)).
Proof.
  assert (Hbus : ~ In FRAMEWORK_LAPTOP_EC_DEVICE_NAME
                      (platform_bus framework13_without_ec)).
  { intros [H|[H|[]]]; discriminate H. }
  split; [reflexivity|].
  split; [exact Hbus|].
  apply (proj1 (framework_add_no_ec_device Sim.silent_xfer framework13_without_ec
                  (Sim.attached tt) eq_refl Hbus)).
Defined.

Lemma attach_detach_balanced_witness :
  attach_can_succeed Sim.framework13 = true /\
  ~ In framework_laptop_battery_hook
       (battery_hooks (Sim.detached Sim.ec_state0)) /\
  ec_refs (attach_detach_cycles Sim.echo_xfer Sim.framework13 100
             (Sim.detached Sim.ec_state0)) = 0 /\
  battery_hooks (attach_detach_cycles Sim.echo_xfer Sim.framework13 100
                   (Sim.detached Sim.ec_state0)) = [] /\
  battery_groups (attach_detach_cycles Sim.echo_xfer Sim.framework13 100
                    (Sim.detached Sim.ec_state0)) = [].
Proof.
  assert (Hnot : ~ In framework_laptop_battery_hook
                      (battery_hooks (Sim.detached Sim.ec_state0)))
    by (intros []).
  split; [reflexivity|].
  split; [exact Hnot|].
  destruct (attach_detach_balanced Sim.echo_xfer Sim.framework13 100
              (Sim.detached Sim.ec_state0) eq_refl Hnot)
    as [Hrefs [Hhooks [Hgroups _]]].
  split; [exact Hrefs|]. split; [exact Hhooks|].
  apply Hgroups. intros b _ [].
Defined.

Lemma run_all_invariant_witness :
  handle_names_ec (Sim.detached Sim.ec_state0) /\
  handle_names_ec
    (run_all Sim.echo_xfer Sim.framework13
       [Attach; ThresholdShow ""; BrightnessSet 50; Detach; ThresholdShow ""]
       (Sim.detached Sim.ec_state0)) /\
  (List.length
     (xfer_log
        (run_all Sim.echo_xfer Sim.framework13
           [Attach; ThresholdShow ""; BrightnessSet 50; Detach; ThresholdShow ""]
           (Sim.detached Sim.ec_state0)))
   <= 0 + 4)%nat.
Proof.
  assert (H0 : handle_names_ec (Sim.detached Sim.ec_state0))
    by (left; reflexivity).
  split; [exact H0|].
  exact (run_all_invariant Sim.echo_xfer Sim.framework13
           [Attach; ThresholdShow ""; BrightnessSet 50; Detach; ThresholdShow ""]
           (Sim.detached Sim.ec_state0) H0).
Defined.

Lemma battery_add_then_remove_witness :
  ~ In (desc_name Sim.BAT1) (battery_groups (Sim.detached tt)) /\
  battery_groups
    (snd (framework_laptop_battery_remove Sim.BAT1
            (snd (framework_laptop_battery_add Sim.framework13 Sim.BAT1
                    (Sim.detached tt)))))
  = battery_groups (Sim.detached tt).
Proof.
  assert (Hnot : ~ In (desc_name Sim.BAT1) (battery_groups (Sim.detached tt)))
    by (intros []).
  split; [exact Hnot|].
  apply (proj1 (battery_add_then_remove Sim.framework13 Sim.BAT1
                  (Sim.detached tt) Hnot)).
Defined.
